(** * Inventory-Optimizations: demand forecasting and safety-stock model

    A shallow embedding of [model.py] (class [InventoryOptimizer]) and of the
    [/predict] handler of [app.py], together with the properties stated about
    them in the specification.

    Numbers.  Python and numpy floats are embedded as the extended reals
    [float64]: a finite real, one of the two infinities, or not-a-number, with
    the IEEE-754 rules for the special values (NaN is absorbing, inf - inf,
    0 * inf, 0 / 0 and the square root of a negative number are NaN, a
    non-zero number divided by zero is an infinity).  Rounding, overflow and
    the sign of zero are not part of the embedding: finite results are exact.
    A Python [int] is an unbounded integer; where numpy takes one, the limits
    of its 64-bit integer types are part of the embedding.

    Libraries.  [scipy.stats.norm.ppf] is defined below as the quantile
    function of the standard normal distribution.  The Holt-Winters fit of
    statsmodels is an optimiser and stays a parameter of the development. *)

From Stdlib Require Import Reals Lra Lia ZArith String List Bool.
From Stdlib Require Import ClassicalEpsilon DecimalString.
Import ListNotations.

Local Open Scope R_scope.

(* ================================================================== *)
(** * numpy float64 values *)
(* ================================================================== *)

Module Float64.

Inductive float64 : Type :=
| Fin (r : R)
| PInf
| NInf
| NaN.

(** [r * inf] for a finite [r]. *)
Definition inf_of_sign (r : R) : float64 :=
  if Req_dec_T r 0 then NaN
  else if Rlt_dec 0 r then PInf else NInf.

Definition fneg (x : float64) : float64 :=
  match x with
  | Fin r => Fin (- r)
  | PInf => NInf
  | NInf => PInf
  | NaN => NaN
  end.

Definition fadd (x y : float64) : float64 :=
  match x, y with
  | NaN, _ | _, NaN => NaN
  | Fin a, Fin b => Fin (a + b)
  | PInf, NInf | NInf, PInf => NaN
  | PInf, _ | _, PInf => PInf
  | NInf, _ | _, NInf => NInf
  end.

Definition fsub (x y : float64) : float64 := fadd x (fneg y).

Definition fmul (x y : float64) : float64 :=
  match x, y with
  | NaN, _ | _, NaN => NaN
  | Fin a, Fin b => Fin (a * b)
  | Fin a, PInf | PInf, Fin a => inf_of_sign a
  | Fin a, NInf | NInf, Fin a => inf_of_sign (- a)
  | PInf, PInf | NInf, NInf => PInf
  | PInf, NInf | NInf, PInf => NInf
  end.

Definition fdiv (x y : float64) : float64 :=
  match x, y with
  | NaN, _ | _, NaN => NaN
  | Fin a, Fin b => if Req_dec_T b 0 then inf_of_sign a else Fin (a / b)
  | Fin _, PInf | Fin _, NInf => Fin 0
  | PInf, Fin b => if Rlt_dec b 0 then NInf else PInf
  | NInf, Fin b => if Rlt_dec b 0 then PInf else NInf
  | _, _ => NaN
  end.

(** [np.sqrt]: NaN (and only a warning) below zero. *)
Definition fsqrt (x : float64) : float64 :=
  match x with
  | Fin a => if Rlt_dec a 0 then NaN else Fin (sqrt a)
  | PInf => PInf
  | NInf | NaN => NaN
  end.

(** The comparison [x <= y] of Python: false as soon as one side is NaN. *)
Definition fle (x y : float64) : Prop :=
  match x, y with
  | NaN, _ | _, NaN => False
  | NInf, _ | _, PInf => True
  | Fin a, Fin b => a <= b
  | _, _ => False
  end.

Definition flt (x y : float64) : Prop :=
  match x, y with
  | NaN, _ | _, NaN => False
  | Fin a, Fin b => a < b
  | NInf, NInf | PInf, PInf => False
  | NInf, _ | _, PInf => True
  | _, _ => False
  end.

Definition isnan (x : float64) : bool :=
  match x with NaN => true | _ => false end.

Definition notna (x : float64) : bool := negb (isnan x).

Definition is_finite (x : float64) : Prop :=
  match x with Fin _ => True | _ => False end.

(** Conversion of a Python [int]. *)
Definition of_int (z : Z) : float64 := Fin (IZR z).
Definition of_nat (n : nat) : float64 := Fin (INR n).

End Float64.
Export Float64.

(* ================================================================== *)
(** * scipy.stats.norm.ppf *)
(* ================================================================== *)

Module Normal.

(** The standard normal density up to its normalising constant. *)
Definition gauss (t : R) : R := exp (- (t * t) / 2).

Lemma gauss_continuity : continuity gauss.
Proof.
  unfold gauss.
  apply (continuity_comp (fun t => - (t * t) / 2) exp).
  - reg.
  - apply derivable_continuous, derivable_exp.
Qed.

Lemma gauss_integrable (a b : R) : Riemann_integrable gauss a b.
Proof.
  destruct (Rle_dec a b) as [Hab | Hab].
  - apply continuity_implies_RiemannInt; [exact Hab | ].
    intros x _. apply gauss_continuity.
  - apply RiemannInt_P1, continuity_implies_RiemannInt; [lra | ].
    intros x _. apply gauss_continuity.
Qed.

(** Area under [gauss] between [0] and [x]. *)
Definition gauss_mass (x : R) : R := RiemannInt (gauss_integrable 0 x).

(** Area under [gauss] over the half line [0, +inf): the least upper bound
    of the areas over [0, x]. *)
Definition half_line_mass : R :=
  epsilon (inhabits 0)
    (is_lub (fun m => exists x, 0 <= x /\ m = gauss_mass x)).

(** The cumulative distribution function at [x >= 0]: one half plus the
    share of the half-line area that lies in [0, x]. *)
Definition norm_cdf_upper (x : R) : R :=
  1 / 2 + gauss_mass x / (2 * half_line_mass).

(** The quantile of a probability [p] in [1/2, 1): the point [z >= 0] with
    [norm_cdf_upper z = p]. *)
Definition probit_upper (p : R) : R :=
  epsilon (inhabits 0) (fun z => 0 <= z /\ norm_cdf_upper z = p).

(** The quantile function on (0, 1); the lower half is the mirror image of
    the upper half, the distribution being symmetric. *)
Definition probit (p : R) : R :=
  if Rle_dec (1 / 2) p then probit_upper p else - probit_upper (1 - p).

(** [scipy.stats.norm.ppf]: -inf at 0, +inf at 1, NaN outside [0, 1]. *)
Definition norm_ppf (p : R) : float64 :=
  if Rlt_dec p 0 then NaN
  else if Rlt_dec 1 p then NaN
  else if Req_dec_T p 0 then NInf
  else if Req_dec_T p 1 then PInf
  else Fin (probit p).

End Normal.
Export Normal.

(* ================================================================== *)
(** * Python exceptions *)
(* ================================================================== *)

Module Py.

(** The two classes of exception the [/predict] handler tells apart. *)
Inductive exn : Type :=
| ValueError (msg : string)
| OtherException (cls : string) (msg : string).

(** [str(e)] *)
Definition str (e : exn) : string :=
  match e with
  | ValueError msg => msg
  | OtherException _ msg => msg
  end.

Inductive outcome (A : Type) : Type :=
| Return (a : A)
| Raise (e : exn).

Arguments Return {A} a.
Arguments Raise {A} e.

Definition bind {A B : Type} (m : outcome A) (k : A -> outcome B) : outcome B :=
  match m with
  | Return a => k a
  | Raise e => Raise e
  end.

(** [try: body  except Exception as e: handler e] *)
Definition try_except {A : Type} (body : outcome A) (handler : exn -> outcome A)
  : outcome A :=
  match body with
  | Return a => Return a
  | Raise e => handler e
  end.

Definition raises {A : Type} (m : outcome A) : Prop :=
  exists e, m = Raise e.

(** [str(n)] for a Python [int]. *)
Definition str_of_int (z : Z) : string := NilZero.string_of_int (Z.to_int z).

End Py.
Export Py.

Notation "x <- m ;; k" := (bind m (fun x => k))
  (at level 61, m at next level, right associativity).

(* ================================================================== *)
(** * numpy functions applied to a Python int *)
(* ================================================================== *)

Module Numpy.

(** Bounds of the integers numpy can hold: [int64] from [-2^63], [uint64]
    below [2^64]. *)
Definition int64_min : Z := (-9223372036854775808)%Z.
Definition uint64_end : Z := 18446744073709551616%Z.

Definition in_ufunc_range (z : Z) : bool :=
  (int64_min <=? z)%Z && (z <? uint64_end)%Z.

Definition fits_64_bits (z : Z) : Prop :=
  (int64_min <= z < uint64_end)%Z.

Definition sqrt_type_error : exn :=
  OtherException "TypeError"
    "loop of ufunc does not support argument 0 of type int which has no callable sqrt method".

(** [np.sqrt(n)] for a Python [int]: the square root of the converted
    number, NaN (and only a warning) below zero; an [int] that fits neither
    [int64] nor [uint64] becomes an object array, on which the function
    raises a [TypeError]. *)
Definition np_sqrt (n : Z) : outcome float64 :=
  if in_ufunc_range n
  then Return (fsqrt (of_int n))
  else Raise sqrt_type_error.

End Numpy.
Export Numpy.

(* ================================================================== *)
(** * pandas: series, statistics, frames *)
(* ================================================================== *)

Module Pandas.

(** A calendar day, counted in days from 1970-01-01 (a Thursday). *)
Definition day := Z.

(** A float series over a [DatetimeIndex]: labels and values, in order.  A
    missing value is NaN. *)
Definition Series := list (day * float64).

Definition values (s : Series) : list float64 := map snd s.
Definition index (s : Series) : list day := map fst s.

(** [len(s)]: every position counts, missing or not. *)
Definition len (s : Series) : nat := length s.

Definition dropna (xs : list float64) : list float64 := filter notna xs.

Definition fsum (xs : list float64) : float64 := fold_left fadd xs (Fin 0).

(** [nanops.nanmean]: the sum of the values that are not missing over their
    number; NaN when there is none. *)
Definition nanmean (xs : list float64) : float64 :=
  let v := dropna xs in
  match v with
  | [] => NaN
  | _ :: _ => fdiv (fsum v) (of_nat (length v))
  end.

(** [nanops.nanvar]: NaN when no more than [ddof] values are present. *)
Definition nanvar (ddof : nat) (xs : list float64) : float64 :=
  let v := dropna xs in
  if (length v <=? ddof)%nat then NaN
  else
    let avg := fdiv (fsum v) (of_nat (length v)) in
    let sqr := map (fun x => fmul (fsub avg x) (fsub avg x)) v in
    fdiv (fsum sqr) (of_nat (length v - ddof)).

Definition nanstd (ddof : nat) (xs : list float64) : float64 :=
  fsqrt (nanvar ddof xs).

(** [s.mean()] and [s.std()] (sample standard deviation, [ddof=1]). *)
Definition mean (s : Series) : float64 := nanmean (values s).
Definition std (s : Series) : float64 := nanstd 1 (values s).

(** [np.std(s)] on a series: population standard deviation, [ddof=0]. *)
Definition np_std (xs : list float64) : float64 := nanstd 0 xs.

(** [a - b] for two series over the same index. *)
Fixpoint series_sub (xs ys : list float64) : list float64 :=
  match xs, ys with
  | x :: xs', y :: ys' => fsub x y :: series_sub xs' ys'
  | _, _ => []
  end.

(** A cell of the [Date] column: the text read from the CSV file, or the
    timestamp [pd.to_datetime] makes of it.  Both carry the day they denote;
    text that is no date is not represented. *)
Inductive date_cell : Type :=
| DateStr (d : day)
| Timestamp (d : day).

Definition day_of (c : date_cell) : day :=
  match c with DateStr d => d | Timestamp d => d end.

Definition to_datetime (c : date_cell) : date_cell := Timestamp (day_of c).

(** A row of the sales frame. *)
Record SalesRecord : Type := mkRecord {
  Store : Z;
  Dept : Z;
  Date : date_cell;
  Weekly_Sales : float64
}.

Definition DataFrame := list SalesRecord.

Definition set_Date (r : SalesRecord) (c : date_cell) : SalesRecord :=
  {| Store := Store r; Dept := Dept r; Date := c; Weekly_Sales := Weekly_Sales r |}.

(** Lexicographic order on [Store], [Dept], [Date]. *)
Definition key_leb (a b : SalesRecord) : bool :=
  if (Store a <? Store b)%Z then true
  else if (Store b <? Store a)%Z then false
  else if (Dept a <? Dept b)%Z then true
  else if (Dept b <? Dept a)%Z then false
  else (day_of (Date a) <=? day_of (Date b))%Z.

Fixpoint insert_sorted (r : SalesRecord) (l : DataFrame) : DataFrame :=
  match l with
  | [] => [r]
  | x :: l' => if key_leb r x then r :: l else x :: insert_sorted r l'
  end.

(** [df.sort_values(['Store', 'Dept', 'Date'])]: a new frame. *)
Definition sort_values (df : DataFrame) : DataFrame :=
  fold_right insert_sorted [] df.

(** Fridays are the days congruent to 1 modulo 7. *)
Definition roll_forward_friday (d : day) : day := (d + (1 - d) mod 7)%Z.

(** [pd.date_range(lo, hi, freq='W-FRI')] *)
Definition date_range_W_FRI (lo hi : day) : list day :=
  let first := roll_forward_friday lo in
  if (hi <? first)%Z then []
  else map (fun k => (first + 7 * Z.of_nat k)%Z)
           (seq 0 (Z.to_nat ((hi - first) / 7) + 1)).

Fixpoint lookup (d : day) (s : Series) : float64 :=
  match s with
  | [] => NaN
  | (d', v) :: s' => if (d =? d')%Z then v else lookup d s'
  end.

Fixpoint has_duplicates (l : list day) : bool :=
  match l with
  | [] => false
  | d :: l' => existsb (Z.eqb d) l' || has_duplicates l'
  end.

Definition index_min (d0 : day) (l : list day) : day := fold_left Z.min l d0.
Definition index_max (d0 : day) (l : list day) : day := fold_left Z.max l d0.

(** [s.asfreq('W-FRI')]: the series re-indexed on the weekly grid between
    its first and last label; a week without a value is NaN.  An empty series
    stays empty, and re-indexing refuses an index with duplicate labels. *)
Definition asfreq_W_FRI (s : Series) : outcome Series :=
  match s with
  | [] => Return []
  | (d0, _) :: _ =>
      if has_duplicates (index s)
      then Raise (ValueError "cannot reindex on an axis with duplicate labels")
      else Return (map (fun g => (g, lookup g s))
                       (date_range_W_FRI (index_min d0 (index s))
                                         (index_max d0 (index s))))
  end.

End Pandas.
Export Pandas.

(* ================================================================== *)
(** * statsmodels: the fitted Holt-Winters model *)
(* ================================================================== *)

Module Statsmodels.

(** What [model.py] uses of a fitted [ExponentialSmoothing] model: the
    in-sample fitted values, over the index of the data, and the forecast of
    a number of steps, which may raise. *)
Record HoltWintersResults : Type := mkResults {
  fittedvalues : list float64;
  forecast_steps : Z -> outcome (list float64)
}.

(** [ExponentialSmoothing(ts, seasonal_periods=52, trend='add',
    seasonal='add', use_boxcox=False).fit()]: a fitted model, or an
    exception. *)
Definition fitter := Series -> outcome HoltWintersResults.

End Statsmodels.
Export Statsmodels.

(* ================================================================== *)
(** * model.py: class InventoryOptimizer *)
(* ================================================================== *)

Module Model.

Record ForecastResult : Type := mkForecast {
  forecast : list float64;
  lower_bound : list float64;
  upper_bound : list float64;
  historical_mean : float64;
  historical_std : float64
}.

Record SafetyStockResult : Type := mkSafetyStock {
  safety_stock : float64;
  reorder_point : float64;
  average_daily_demand : float64;
  demand_std_dev : float64;
  ss_service_level : R;
  ss_lead_time_days : Z
}.

Record CostSavingsResult : Type := mkCostSavings {
  current_safety_stock : float64;
  optimized_safety_stock : float64;
  reduction : float64;
  reduction_percentage : float64
}.

Record Summary : Type := mkSummary {
  avg_weekly_sales : float64;
  std_weekly_sales : float64;
  coefficient_of_variation : float64;
  data_points : nat
}.

Record Recommendation : Type := mkRecommendation {
  rec_forecast : ForecastResult;
  rec_safety_stock : SafetyStockResult;
  rec_cost_savings : CostSavingsResult;
  rec_summary : Summary
}.

(** The optimizer object.  Its attributes [model] and [forecast_data] are
    written by [forecast_demand] and read by no method; they are left out. *)
Record InventoryOptimizer : Type := mkOptimizer {
  service_level : R
}.

(** [InventoryOptimizer.__init__] *)
Definition init (service_level : R) : InventoryOptimizer :=
  {| service_level := service_level |}.

(** [prepare_data]: the caller's frame as the call leaves it, and the series
    returned (or the exception raised). *)
Definition prepare_data (df : DataFrame) (store_id dept_id : Z)
  : DataFrame * outcome Series :=
  (* df['Date'] = pd.to_datetime(df['Date']) : assignment into the caller's frame *)
  let df0 := map (fun r => set_Date r (to_datetime (Date r))) df in
  (* df = df.sort_values(...) : from here on a frame of its own *)
  let df1 := sort_values df0 in
  let filtered_df :=
    filter (fun r => (Store r =? store_id)%Z && (Dept r =? dept_id)%Z) df1 in
  (* set_index('Date')['Weekly_Sales'] *)
  let sales := map (fun r => (day_of (Date r), Weekly_Sales r)) filtered_df in
  (df0, asfreq_W_FRI sales).

(** Default of the [lead_time_days] argument. *)
Definition default_lead_time_days : Z := 7.

(** Default of the [current_buffer_multiplier] argument. *)
Definition default_buffer_multiplier : R := 15 / 10.

Section Optimizer.

Variable fit : fitter.

Definition forecast_demand (self : InventoryOptimizer) (ts_data : Series)
  (forecast_periods : Z) : outcome ForecastResult :=
  try_except
    (model <- fit ts_data ;;
     fc <- forecast_steps model forecast_periods ;;
     let residuals := series_sub (values ts_data) (fittedvalues model) in
     let std_error := np_std residuals in
     let z_score := norm_ppf ((1 + service_level self) / 2) in
     let margin_of_error := fmul z_score std_error in
     Return {| forecast := fc;
               lower_bound := map (fun f => fsub f margin_of_error) fc;
               upper_bound := map (fun f => fadd f margin_of_error) fc;
               historical_mean := mean ts_data;
               historical_std := std ts_data |})
    (fun e => Raise (ValueError ("Error in forecasting: " ++ str e))).

Definition calculate_safety_stock (self : InventoryOptimizer) (ts_data : Series)
  (lead_time_days : Z) : outcome SafetyStockResult :=
  let daily_demand := fdiv (mean ts_data) (Fin 7) in
  let demand_std := fdiv (std ts_data) (Fin 7) in
  let z_score := norm_ppf (service_level self) in
  root <- np_sqrt lead_time_days ;;
  let safety_stock := fmul (fmul z_score demand_std) root in
  let reorder_point :=
    fadd (fmul daily_demand (of_int lead_time_days)) safety_stock in
  Return {| safety_stock := safety_stock;
            reorder_point := reorder_point;
            average_daily_demand := daily_demand;
            demand_std_dev := demand_std;
            ss_service_level := service_level self;
            ss_lead_time_days := lead_time_days |}.

Definition estimate_cost_savings (self : InventoryOptimizer) (ts_data : Series)
  (current_buffer_multiplier : R) : outcome CostSavingsResult :=
  let current_safety_stock := fmul (mean ts_data) (Fin current_buffer_multiplier) in
  ss <- calculate_safety_stock self ts_data default_lead_time_days ;;
  let optimized_safety_stock := fmul (safety_stock ss) (Fin 7) in
  let reduction := fsub current_safety_stock optimized_safety_stock in
  let reduction_percentage :=
    fmul (fdiv reduction current_safety_stock) (Fin 100) in
  Return {| current_safety_stock := current_safety_stock;
            optimized_safety_stock := optimized_safety_stock;
            reduction := reduction;
            reduction_percentage := reduction_percentage |}.

Definition get_recommendations (self : InventoryOptimizer) (ts_data : Series)
  (forecast_periods lead_time_days : Z) : outcome Recommendation :=
  fc <- forecast_demand self ts_data forecast_periods ;;
  ss <- calculate_safety_stock self ts_data lead_time_days ;;
  cs <- estimate_cost_savings self ts_data default_buffer_multiplier ;;
  Return {| rec_forecast := fc;
            rec_safety_stock := ss;
            rec_cost_savings := cs;
            rec_summary :=
              {| avg_weekly_sales := mean ts_data;
                 std_weekly_sales := std ts_data;
                 coefficient_of_variation :=
                   fmul (fdiv (std ts_data) (mean ts_data)) (Fin 100);
                 data_points := len ts_data |} |}.

End Optimizer.

End Model.
Export Model.

(* ================================================================== *)
(** * app.py: the /predict handler *)
(* ================================================================== *)

Module App.

(** The request parameters, defaults applied. *)
Record Request : Type := mkRequest {
  store_id : Z;
  dept_id : Z;
  forecast_periods : Z;
  lead_time_days : Z;
  req_service_level : R
}.

Inductive Response : Type :=
| Json200 (recommendations : Recommendation) (parameters : Request)
| JsonError (status : Z) (error : string) (message : string).

(** The two [except] clauses of [predict]. *)
Definition handle (e : exn) : Response :=
  match e with
  | ValueError msg => JsonError 400 "Validation error" msg
  | OtherException _ msg => JsonError 500 "Internal server error" msg
  end.

Section Predict.

Variable fit : fitter.

(** [predict], given whether [Train.csv] exists and the frame read from it. *)
Definition predict (file_exists : bool) (df : DataFrame) (req : Request)
  : Response :=
  if negb file_exists
  then JsonError 404 "Training data file not found"
                 "Please ensure Train.csv is available"
  else
    let optimizer := init (req_service_level req) in
    match snd (prepare_data df (store_id req) (dept_id req)) with
    | Raise e => handle e
    | Return ts_data =>
        if (len ts_data =? 0)%nat
        then JsonError 404 "No data found"
               ("No data available for Store " ++ str_of_int (store_id req)
                ++ ", Department " ++ str_of_int (dept_id req))
        else
          match get_recommendations fit optimizer ts_data
                  (forecast_periods req) (lead_time_days req) with
          | Return recommendations => Json200 recommendations req
          | Raise e => handle e
          end
    end.

End Predict.

End App.
Export App.

(* ================================================================== *)
(** * Properties of the normal quantile *)
(* ================================================================== *)

Module NormalFacts.

Lemma gauss_pos (t : R) : 0 < gauss t.
Proof. apply exp_pos. Qed.

Lemma gauss_le_1 (t : R) : gauss t <= 1.
Proof.
  unfold gauss. rewrite <- exp_0.
  destruct (Req_dec_T t 0) as [-> | Ht].
  - right. f_equal. lra.
  - left. apply exp_increasing. nra.
Qed.

Lemma gauss_mass_0 : gauss_mass 0 = 0.
Proof. unfold gauss_mass. apply RiemannInt_P9. Qed.

Lemma gauss_mass_diff (x y : R) :
  gauss_mass y - gauss_mass x = RiemannInt (gauss_integrable x y).
Proof.
  unfold gauss_mass.
  rewrite <- (RiemannInt_P26 (gauss_integrable 0 x) (gauss_integrable x y)
                             (gauss_integrable 0 y)).
  ring.
Qed.

Lemma gauss_mass_increasing (x y : R) :
  x < y -> gauss_mass x < gauss_mass y.
Proof.
  intros Hxy.
  assert (Hb := @RiemannInt_const_bound gauss x y
                  (exp (- (x * x + y * y) / 2)) 1 (gauss_integrable x y)).
  rewrite <- gauss_mass_diff in Hb.
  assert (Hlow : 0 < exp (- (x * x + y * y) / 2) * (y - x)).
  { apply Rmult_lt_0_compat; [apply exp_pos | lra]. }
  destruct Hb as [Hb _]; [lra | | lra].
  intros t Ht. split; [ | apply gauss_le_1].
  unfold gauss.
  assert (Hsq : t * t <= x * x + y * y) by (destruct (Rle_dec 0 t); nra).
  destruct Hsq as [Hsq | ->]; [ | lra].
  left. apply exp_increasing. lra.
Qed.

Lemma gauss_mass_lipschitz (x y : R) :
  x <= y -> 0 <= gauss_mass y - gauss_mass x <= y - x.
Proof.
  intros Hxy.
  assert (Hb := @RiemannInt_const_bound gauss x y 0 1 (gauss_integrable x y) Hxy).
  rewrite <- gauss_mass_diff in Hb.
  destruct Hb as [Hl Hu]; [ | lra].
  intros t _. split; [left; apply gauss_pos | apply gauss_le_1].
Qed.

Lemma gauss_mass_continuity : continuity gauss_mass.
Proof.
  intros x eps Heps. exists eps. split; [exact Heps | ].
  intros y [_ Hy]. simpl in *. unfold Rdist in *.
  destruct (Rle_dec x y) as [Hxy | Hxy].
  - pose proof (gauss_mass_lipschitz x y Hxy).
    rewrite Rabs_pos_eq in Hy by lra. rewrite Rabs_pos_eq by lra. lra.
  - pose proof (gauss_mass_lipschitz y x ltac:(lra)).
    rewrite Rabs_left1 in Hy by lra. rewrite Rabs_left1 by lra. lra.
Qed.


(** An antiderivative of [t |-> exp (1/2 - t)], which dominates [gauss]. *)
Definition tail_primitive (t : R) : R := - exp (1 / 2 - t).

Lemma tail_primitive_derivable : derivable tail_primitive.
Proof. unfold tail_primitive. reg. Qed.

Lemma tail_primitive_derive (t : R) :
  derive tail_primitive tail_primitive_derivable t = exp (1 / 2 - t).
Proof.
  unfold derive. apply derive_pt_eq_0.
  unfold tail_primitive.
  replace (exp (1 / 2 - t)) with (- (exp (1 / 2 - t) * (0 - 1))) by ring.
  apply derivable_pt_lim_opp.
  apply (derivable_pt_lim_comp (fun u => 1 / 2 - u) exp).
  - apply (derivable_pt_lim_minus (fun _ => 1 / 2) (fun u => u)).
    + apply derivable_pt_lim_const.
    + apply derivable_pt_lim_id.
  - apply derivable_pt_lim_exp.
Qed.

Lemma tail_primitive_cont1 :
  continuity (derive tail_primitive tail_primitive_derivable).
Proof.
  intros x.
  apply (continuity_pt_locally_ext (fun t => exp (1 / 2 - t)) _ 1 x); [lra | | ].
  - intros y _. symmetry. apply tail_primitive_derive.
  - apply (continuity_pt_comp (fun t => 1 / 2 - t) exp).
    + reg.
    + apply derivable_continuous_pt, derivable_pt_exp.
Qed.

Definition tail_C1 : C1_fun :=
  mkC1 tail_primitive_cont1.

Lemma gauss_le_tail (t : R) : gauss t <= exp (1 / 2 - t).
Proof.
  unfold gauss.
  assert (H : - (t * t) / 2 <= 1 / 2 - t).
  { pose proof (Rle_0_sqr (t - 1)) as Hs. unfold Rsqr in Hs. lra. }
  destruct H as [H | ->]; [left; apply exp_increasing; exact H | lra].
Qed.

Lemma gauss_mass_bounded (x : R) : 0 <= x -> gauss_mass x <= exp (1 / 2).
Proof.
  intros Hx.
  pose (pr := RiemannInt_P32 tail_C1 0 x).
  assert (Hle : RiemannInt (gauss_integrable 0 x) <= RiemannInt pr).
  { apply RiemannInt_P19; [exact Hx | ].
    intros t _. simpl. rewrite tail_primitive_derive. apply gauss_le_tail. }
  rewrite (FTC_Riemann tail_C1 pr) in Hle. simpl in Hle.
  unfold tail_primitive in Hle.
  replace (1 / 2 - 0) with (1 / 2) in Hle by lra.
  pose proof (exp_pos (1 / 2 - x)).
  unfold gauss_mass. lra.
Qed.

Definition mass_range (m : R) : Prop := exists x, 0 <= x /\ m = gauss_mass x.

Lemma half_line_mass_lub : is_lub mass_range half_line_mass.
Proof.
  unfold half_line_mass. apply epsilon_spec.
  destruct (completeness mass_range) as [m Hm].
  - exists (exp (1 / 2)). intros m (x & Hx & ->). now apply gauss_mass_bounded.
  - exists (gauss_mass 0), 0. split; [lra | reflexivity].
  - exists m. exact Hm.
Qed.

Lemma gauss_mass_lt_half_line (x : R) : 0 <= x -> gauss_mass x < half_line_mass.
Proof.
  intros Hx.
  destruct half_line_mass_lub as [Hub _].
  apply Rlt_le_trans with (gauss_mass (x + 1)).
  - apply gauss_mass_increasing. lra.
  - apply Hub. exists (x + 1). split; [lra | reflexivity].
Qed.

Lemma half_line_mass_pos : 0 < half_line_mass.
Proof.
  rewrite <- gauss_mass_0. apply gauss_mass_lt_half_line. lra.
Qed.

Lemma gauss_mass_reaches (m : R) :
  0 <= m < half_line_mass -> exists z, 0 <= z /\ gauss_mass z = m.
Proof.
  intros [Hm0 Hm1].
  destruct half_line_mass_lub as [_ Hleast].
  assert (Hex : exists x, 0 <= x /\ m < gauss_mass x).
  { destruct (classic (exists x, 0 <= x /\ m < gauss_mass x)) as [H | H]; [exact H | ].
    exfalso. apply (Rlt_not_le _ _ Hm1). apply Hleast.
    intros v (x & Hx & ->). apply Rnot_lt_le. intro Hlt. apply H. now exists x. }
  destruct Hex as (x & Hx & Hmx).
  destruct (IVT_cor (fun t => gauss_mass t - m) 0 x) as (z & Hz & Hfz).
  - apply continuity_minus; [apply gauss_mass_continuity | apply continuity_const; now intros ? ?].
  - exact Hx.
  - rewrite gauss_mass_0. nra.
  - exists z. split; [lra | lra].
Qed.

Lemma norm_cdf_upper_0 : norm_cdf_upper 0 = 1 / 2.
Proof. unfold norm_cdf_upper. rewrite gauss_mass_0. field. pose proof half_line_mass_pos. lra. Qed.

Lemma norm_cdf_upper_increasing (x y : R) :
  x < y -> norm_cdf_upper x < norm_cdf_upper y.
Proof.
  intros Hxy. unfold norm_cdf_upper.
  pose proof half_line_mass_pos as Hc.
  pose proof (gauss_mass_increasing x y Hxy) as Hm.
  apply Rplus_lt_compat_l. unfold Rdiv.
  apply Rmult_lt_compat_r; [ | exact Hm].
  apply Rinv_0_lt_compat. lra.
Qed.

Lemma norm_cdf_upper_lt_1 (x : R) : 0 <= x -> norm_cdf_upper x < 1.
Proof.
  intros Hx. unfold norm_cdf_upper.
  pose proof half_line_mass_pos as Hc.
  pose proof (gauss_mass_lt_half_line x Hx) as Hm.
  assert (gauss_mass x / (2 * half_line_mass) < 1 / 2); [ | lra].
  apply Rmult_lt_reg_r with (2 * half_line_mass); [lra | ].
  unfold Rdiv. rewrite Rmult_assoc, Rinv_l by lra. lra.
Qed.

Lemma probit_upper_spec (p : R) :
  1 / 2 <= p < 1 ->
  0 <= probit_upper p /\ norm_cdf_upper (probit_upper p) = p.
Proof.
  intros [Hp0 Hp1]. unfold probit_upper. apply epsilon_spec.
  pose proof half_line_mass_pos as Hc.
  destruct (gauss_mass_reaches ((2 * p - 1) * half_line_mass)) as (z & Hz & Hmz).
  - split; nra.
  - exists z. split; [exact Hz | ]. unfold norm_cdf_upper. rewrite Hmz. field. lra.
Qed.


Lemma norm_cdf_upper_inj (x y : R) :
  norm_cdf_upper x = norm_cdf_upper y -> x = y.
Proof.
  intros Heq.
  destruct (Rtotal_order x y) as [H | [H | H]]; [ | exact H | ];
    apply norm_cdf_upper_increasing in H; lra.
Qed.

Lemma probit_upper_half : probit_upper (1 / 2) = 0.
Proof.
  destruct (probit_upper_spec (1 / 2)) as [_ H]; [lra | ].
  apply norm_cdf_upper_inj. now rewrite H, norm_cdf_upper_0.
Qed.

Lemma probit_upper_increasing (p q : R) :
  1 / 2 <= p -> p < q -> q < 1 -> probit_upper p < probit_upper q.
Proof.
  intros Hp Hpq Hq.
  destruct (probit_upper_spec p) as [_ Hcp]; [lra | ].
  destruct (probit_upper_spec q) as [_ Hcq]; [lra | ].
  destruct (Rlt_le_dec (probit_upper p) (probit_upper q)) as [H | H]; [exact H | ].
  exfalso. destruct H as [H | H].
  - apply norm_cdf_upper_increasing in H. lra.
  - rewrite H in Hcq. lra.
Qed.

Lemma probit_upper_pos (p : R) : 1 / 2 < p < 1 -> 0 < probit_upper p.
Proof.
  intros [Hp0 Hp1]. rewrite <- probit_upper_half.
  apply probit_upper_increasing; lra.
Qed.

Lemma probit_half : probit (1 / 2) = 0.
Proof.
  unfold probit. destruct (Rle_dec (1 / 2) (1 / 2)); [ | lra].
  apply probit_upper_half.
Qed.

Lemma probit_pos (p : R) : 1 / 2 < p < 1 -> 0 < probit p.
Proof.
  intros Hp. unfold probit. destruct (Rle_dec (1 / 2) p); [ | lra].
  now apply probit_upper_pos.
Qed.

Lemma probit_neg (p : R) : 0 < p < 1 / 2 -> probit p < 0.
Proof.
  intros Hp. unfold probit. destruct (Rle_dec (1 / 2) p); [lra | ].
  pose proof (probit_upper_pos (1 - p)). lra.
Qed.

Lemma probit_nonneg (p : R) : 1 / 2 <= p < 1 -> 0 <= probit p.
Proof.
  intros [[Hp | <-] Hp1]; [left; apply probit_pos; lra | rewrite probit_half; lra].
Qed.

(** The z-score is strictly increasing in the probability. *)
Lemma probit_increasing (p q : R) :
  0 < p -> p < q -> q < 1 -> probit p < probit q.
Proof.
  intros Hp Hpq Hq.
  destruct (Rle_dec (1 / 2) p) as [Hhp | Hhp].
  - unfold probit. destruct (Rle_dec (1 / 2) p); [ | lra].
    destruct (Rle_dec (1 / 2) q); [ | lra].
    apply probit_upper_increasing; lra.
  - destruct (Rle_dec (1 / 2) q) as [Hhq | Hhq].
    + apply Rlt_le_trans with 0; [apply probit_neg | apply probit_nonneg]; lra.
    + unfold probit. destruct (Rle_dec (1 / 2) p); [lra | ].
      destruct (Rle_dec (1 / 2) q); [lra | ].
      pose proof (probit_upper_increasing (1 - q) (1 - p)). lra.
Qed.

Lemma norm_ppf_interior (p : R) : 0 < p < 1 -> norm_ppf p = Fin (probit p).
Proof.
  intros [Hp0 Hp1]. unfold norm_ppf.
  destruct (Rlt_dec p 0); [lra | ]. destruct (Rlt_dec 1 p); [lra | ].
  destruct (Req_dec_T p 0); [lra | ]. destruct (Req_dec_T p 1); [lra | ].
  reflexivity.
Qed.



End NormalFacts.
Import NormalFacts.

(* ================================================================== *)
(** * Arithmetic and statistics on float64 *)
(* ================================================================== *)

Module FloatFacts.

Lemma fdiv_Fin (a b : R) : b <> 0 -> fdiv (Fin a) (Fin b) = Fin (a / b).
Proof. intros Hb. simpl. destruct (Req_dec_T b 0); [contradiction | reflexivity]. Qed.

Lemma fsqrt_Fin (a : R) : 0 <= a -> fsqrt (Fin a) = Fin (sqrt a).
Proof. intros Ha. simpl. destruct (Rlt_dec a 0); [lra | reflexivity]. Qed.

Lemma inf_of_sign_pos (r : R) : 0 < r -> inf_of_sign r = PInf.
Proof.
  intros Hr. unfold inf_of_sign.
  destruct (Req_dec_T r 0); [lra | ]. destruct (Rlt_dec 0 r); [reflexivity | lra].
Qed.


Lemma fmul_NaN_r (x : float64) : fmul x NaN = NaN.
Proof. now destruct x. Qed.

Lemma fadd_NaN_r (x : float64) : fadd x NaN = NaN.
Proof. now destruct x. Qed.

Lemma fadd_zero_l (x : float64) : fadd (Fin 0) x = x.
Proof. destruct x; simpl; try reflexivity. f_equal. lra. Qed.

Lemma fsqrt_finite_nonneg (x : float64) (s : R) : fsqrt x = Fin s -> 0 <= s.
Proof.
  destruct x as [a | | | ]; simpl; try discriminate.
  destruct (Rlt_dec a 0); [discriminate | ].
  intros [= <-]. apply sqrt_pos.
Qed.

Lemma fle_refl_Fin (a : R) : fle (Fin a) (Fin a).
Proof. simpl. lra. Qed.

(** Sums of present values. *)
Lemma fold_fadd_Fin (l : list R) (a : R) :
  fold_left fadd (map Fin l) (Fin a) = Fin (fold_left Rplus l a).
Proof.
  revert a. induction l as [ | x l IH]; intros a; simpl; [reflexivity | apply IH].
Qed.

Lemma fsum_Fin (l : list R) : fsum (map Fin l) = Fin (fold_left Rplus l 0).
Proof. apply fold_fadd_Fin. Qed.

Lemma dropna_Fin (l : list R) : dropna (map Fin l) = map Fin l.
Proof.
  unfold dropna. induction l as [ | x l IH]; simpl; [reflexivity | now rewrite IH].
Qed.

Lemma INR_length_pos {A : Type} (x : A) (l : list A) : INR (length (x :: l)) <> 0.
Proof. apply not_0_INR. discriminate. Qed.

Lemma nanmean_Fin (x : R) (l : list R) :
  nanmean (map Fin (x :: l))
  = Fin (fold_left Rplus (x :: l) 0 / INR (length (x :: l))).
Proof.
  unfold nanmean. rewrite dropna_Fin.
  change (map Fin (x :: l)) with (Fin x :: map Fin l) at 1.
  cbv iota beta. rewrite fsum_Fin, length_map. unfold of_nat.
  apply fdiv_Fin, INR_length_pos.
Qed.

(** The sum of squared deviations from [avg]. *)
Definition sum_sq (avg : R) (l : list R) : R :=
  fold_left Rplus (map (fun x => (avg - x) * (avg - x)) l) 0.

Lemma fold_Rplus_nonneg (l : list R) (a : R) :
  0 <= a -> Forall (fun x => 0 <= x) l -> 0 <= fold_left Rplus l a.
Proof.
  revert a. induction l as [ | x l IH]; intros a Ha Hl; simpl; [exact Ha | ].
  inversion Hl; subst. apply IH; [lra | assumption].
Qed.

Lemma sum_sq_nonneg (avg : R) (l : list R) : 0 <= sum_sq avg l.
Proof.
  apply fold_Rplus_nonneg; [lra | ].
  apply Forall_forall. intros y Hy. apply in_map_iff in Hy.
  destruct Hy as (x & <- & _). apply Rle_0_sqr.
Qed.

Lemma nanvar_Fin (ddof : nat) (l : list R) :
  (ddof < length l)%nat ->
  nanvar ddof (map Fin l)
  = Fin (sum_sq (fold_left Rplus l 0 / INR (length l)) l / INR (length l - ddof)).
Proof.
  intros Hlen. unfold nanvar. rewrite dropna_Fin, length_map.
  destruct (Nat.leb_spec (length l) ddof) as [Hle | _]; [lia | ].
  rewrite fsum_Fin. unfold of_nat.
  rewrite fdiv_Fin by (apply not_0_INR; lia).
  rewrite map_map. simpl fsub.
  set (avg := fold_left Rplus l 0 / INR (length l)).
  replace (map (fun x => fmul (Fin (avg + - x)) (Fin (avg + - x))) l)
    with (map Fin (map (fun x => (avg - x) * (avg - x)) l)).
  - rewrite fsum_Fin. apply fdiv_Fin, not_0_INR. lia.
  - rewrite map_map. apply map_ext. intros x. reflexivity.
Qed.

Lemma nanstd_Fin (ddof : nat) (l : list R) :
  (ddof < length l)%nat ->
  nanstd ddof (map Fin l)
  = Fin (sqrt (sum_sq (fold_left Rplus l 0 / INR (length l)) l
               / INR (length l - ddof))).
Proof.
  intros Hlen. unfold nanstd. rewrite nanvar_Fin by exact Hlen.
  apply fsqrt_Fin. apply Rmult_le_pos; [apply sum_sq_nonneg | ].
  left. apply Rinv_0_lt_compat. apply lt_0_INR. lia.
Qed.

End FloatFacts.
Import FloatFacts.

(* ================================================================== *)
(** * Sample data *)
(* ================================================================== *)

Module Fixtures.

(** Two consecutive Fridays (1970-01-02 and 1970-01-09), sales 0 and 14. *)
Definition two_weeks : Series := [(1%Z, Fin 0); (8%Z, Fin 14)].

Lemma mean_two_weeks : mean two_weeks = Fin 7.
Proof.
  unfold mean. change (values two_weeks) with (map Fin [0; 14]).
  rewrite nanmean_Fin. f_equal. simpl. lra.
Qed.

Lemma std_two_weeks : std two_weeks = Fin (sqrt 98).
Proof.
  unfold std. change (values two_weeks) with (map Fin [0; 14]).
  rewrite nanstd_Fin by (simpl; lia). do 2 f_equal.
  unfold sum_sq. simpl. lra.
Qed.

Lemma sqrt_98_pos : 0 < sqrt 98.
Proof. apply sqrt_lt_R0. lra. Qed.

Lemma service_level_95 : 0 < service_level (init (95 / 100)) < 1.
Proof. cbn [service_level init]. lra. Qed.

End Fixtures.
Import Fixtures.

(* ================================================================== *)
(** * Safety stock and reorder point *)
(* ================================================================== *)

Module SafetyStockFacts.

Lemma in_ufunc_range_iff (z : Z) : in_ufunc_range z = true <-> fits_64_bits z.
Proof.
  unfold in_ufunc_range, fits_64_bits.
  rewrite andb_true_iff, Z.leb_le, Z.ltb_lt. tauto.
Qed.

Lemma np_sqrt_in_range (z : Z) :
  fits_64_bits z -> np_sqrt z = Return (fsqrt (of_int z)).
Proof.
  intros H. apply in_ufunc_range_iff in H. unfold np_sqrt. now rewrite H.
Qed.

Lemma np_sqrt_out_of_range (z : Z) :
  ~ fits_64_bits z -> np_sqrt z = Raise sqrt_type_error.
Proof.
  intros H. unfold np_sqrt. destruct (in_ufunc_range z) eqn:E; [ | reflexivity].
  apply in_ufunc_range_iff in E. contradiction.
Qed.

(** The result for a lead time that numpy can hold. *)
Lemma calculate_safety_stock_in_range (self : InventoryOptimizer) (ts : Series) (L : Z) :
  fits_64_bits L ->
  calculate_safety_stock self ts L
  = Return {| safety_stock :=
                fmul (fmul (norm_ppf (service_level self)) (fdiv (std ts) (Fin 7)))
                     (fsqrt (of_int L));
              reorder_point :=
                fadd (fmul (fdiv (mean ts) (Fin 7)) (of_int L))
                     (fmul (fmul (norm_ppf (service_level self)) (fdiv (std ts) (Fin 7)))
                           (fsqrt (of_int L)));
              average_daily_demand := fdiv (mean ts) (Fin 7);
              demand_std_dev := fdiv (std ts) (Fin 7);
              ss_service_level := service_level self;
              ss_lead_time_days := L |}.
Proof.
  intros H. unfold calculate_safety_stock. now rewrite (np_sqrt_in_range L H).
Qed.

(** For any other lead time the square root raises. *)
Lemma calculate_safety_stock_out_of_range (self : InventoryOptimizer) (ts : Series)
  (L : Z) :
  ~ fits_64_bits L ->
  calculate_safety_stock self ts L = Raise sqrt_type_error.
Proof.
  intros H. unfold calculate_safety_stock. now rewrite (np_sqrt_out_of_range L H).
Qed.

Lemma nonneg_fits (L : Z) : (0 <= L)%Z -> (L < uint64_end)%Z -> fits_64_bits L.
Proof. unfold fits_64_bits, int64_min. lia. Qed.

(** The safety stock and reorder point as real numbers, for a series with
    defined statistics, a service level in (0,1) and a lead time that is not
    negative. *)
Lemma calculate_safety_stock_finite (self : InventoryOptimizer) (ts : Series)
  (L : Z) (m s : R) :
  mean ts = Fin m ->
  std ts = Fin s ->
  0 < service_level self < 1 ->
  (0 <= L)%Z ->
  (L < uint64_end)%Z ->
  exists r : SafetyStockResult,
    calculate_safety_stock self ts L = Return r /\
    safety_stock r = Fin (probit (service_level self) * (s / 7) * sqrt (IZR L)) /\
    reorder_point r
    = Fin (m / 7 * IZR L + probit (service_level self) * (s / 7) * sqrt (IZR L)).
Proof.
  intros Hm Hs Hsl HL Hmax.
  rewrite (calculate_safety_stock_in_range self ts L (nonneg_fits L HL Hmax)).
  rewrite Hm, Hs, norm_ppf_interior by exact Hsl.
  rewrite !fdiv_Fin by lra. unfold of_int.
  rewrite fsqrt_Fin by (apply IZR_le; exact HL).
  eexists. split; [reflexivity | ]. split; reflexivity.
Qed.

Lemma zero_fits : fits_64_bits 0.
Proof. unfold fits_64_bits, int64_min, uint64_end. lia. Qed.

Lemma seven_fits : fits_64_bits 7.
Proof. unfold fits_64_bits, int64_min, uint64_end. lia. Qed.

Lemma seven_below_end : (7 < uint64_end)%Z.
Proof. reflexivity. Qed.

Lemma end_does_not_fit : ~ fits_64_bits uint64_end.
Proof. unfold fits_64_bits. lia. Qed.

Lemma below_min_does_not_fit : ~ fits_64_bits (int64_min - 1).
Proof. unfold fits_64_bits. lia. Qed.

End SafetyStockFacts.
Import SafetyStockFacts.

(** C1 (as the code has it). For a series with defined weekly mean [m]
    and standard deviation [s], and a lead time [L] that fits a 64-bit
    integer, [calculate_safety_stock] returns the daily demand [m/7], the
    daily spread [s/7], the safety stock [ppf(service_level) * (s/7) * sqrt L]
    and the reorder point [(m/7) * L + safety_stock]; for a service level in
    (0,1) and [L >= 0] these are the finite numbers of the formula, and at
    [L = 0] the reorder point is the safety stock. *)
Theorem C1_calculate_safety_stock_formula :
  forall (self : InventoryOptimizer) (ts : Series) (L : Z) (m s : R),
    mean ts = Fin m ->
    std ts = Fin s ->
    fits_64_bits L ->
    exists r : SafetyStockResult,
      calculate_safety_stock self ts L = Return r /\
      average_daily_demand r = Fin (m / 7) /\
      demand_std_dev r = Fin (s / 7) /\
      safety_stock r
      = fmul (fmul (norm_ppf (service_level self)) (Fin (s / 7)))
             (fsqrt (of_int L)) /\
      reorder_point r = fadd (fmul (Fin (m / 7)) (of_int L)) (safety_stock r) /\
      (0 < service_level self < 1 -> (0 <= L)%Z ->
       safety_stock r
       = Fin (probit (service_level self) * (s / 7) * sqrt (IZR L)) /\
       reorder_point r
       = Fin (m / 7 * IZR L
              + probit (service_level self) * (s / 7) * sqrt (IZR L))) /\
      (L = 0%Z -> reorder_point r = safety_stock r).
Proof.
  intros self ts L m s Hm Hs HL.
  rewrite (calculate_safety_stock_in_range self ts L HL). rewrite Hm, Hs.
  rewrite !fdiv_Fin by lra.
  eexists. split; [reflexivity | ]. cbn [average_daily_demand demand_std_dev
    safety_stock reorder_point].
  repeat split.
  - rewrite norm_ppf_interior by assumption. unfold of_int.
    rewrite fsqrt_Fin by (apply IZR_le; assumption). reflexivity.
  - rewrite norm_ppf_interior by assumption. unfold of_int.
    rewrite fsqrt_Fin by (apply IZR_le; assumption). reflexivity.
  - intros ->. unfold of_int.
    replace (fmul (Fin (m / 7)) (Fin 0)) with (Fin 0)
      by (simpl; f_equal; lra).
    apply fadd_zero_l.
Qed.

Lemma C1_witness :
  exists r : SafetyStockResult,
    calculate_safety_stock (init (95 / 100)) two_weeks 0 = Return r /\
    average_daily_demand r = Fin (7 / 7) /\
    demand_std_dev r = Fin (sqrt 98 / 7) /\
    safety_stock r
    = fmul (fmul (norm_ppf (service_level (init (95 / 100)))) (Fin (sqrt 98 / 7)))
           (fsqrt (of_int 0)) /\
    reorder_point r = fadd (fmul (Fin (7 / 7)) (of_int 0)) (safety_stock r) /\
    (0 < service_level (init (95 / 100)) < 1 -> (0 <= 0)%Z ->
     safety_stock r
     = Fin (probit (service_level (init (95 / 100))) * (sqrt 98 / 7) * sqrt (IZR 0)) /\
     reorder_point r
     = Fin (7 / 7 * IZR 0
            + probit (service_level (init (95 / 100))) * (sqrt 98 / 7) * sqrt (IZR 0))) /\
    (0%Z = 0%Z -> reorder_point r = safety_stock r).
Proof.
  exact (C1_calculate_safety_stock_formula (init (95 / 100)) two_weeks 0 7 (sqrt 98)
           mean_two_weeks std_two_weeks zero_fits).
Defined.

(** C1 as stated fails: the sample series has a defined mean and standard
    deviation, yet for the lead times [2^64] and [-2^63 - 1] the square root
    raises a [TypeError] and nothing is returned. *)
Lemma C1_counterexample_lead_time_beyond_64_bits :
  mean two_weeks = Fin 7 /\ std two_weeks = Fin (sqrt 98) /\
  calculate_safety_stock (init (95 / 100)) two_weeks 18446744073709551616
  = Raise sqrt_type_error /\
  calculate_safety_stock (init (95 / 100)) two_weeks (-9223372036854775809)
  = Raise sqrt_type_error /\
  ~ exists r, calculate_safety_stock (init (95 / 100)) two_weeks 18446744073709551616
              = Return r.
Proof.
  split; [exact mean_two_weeks | ]. split; [exact std_two_weeks | ].
  split; [exact (calculate_safety_stock_out_of_range _ _ _ end_does_not_fit) | ].
  split; [exact (calculate_safety_stock_out_of_range _ _ _ below_min_does_not_fit) | ].
  intros [r Hr].
  rewrite (calculate_safety_stock_out_of_range _ _ _ end_does_not_fit) in Hr.
  discriminate.
Qed.

(* ================================================================== *)
(** * Forecast interval *)
(* ================================================================== *)

Module ForecastFacts.

Lemma nanstd_finite_nonneg (ddof : nat) (xs : list float64) :
  is_finite (nanstd ddof xs) -> exists s, nanstd ddof xs = Fin s /\ 0 <= s.
Proof.
  intros Hfin. destruct (nanstd ddof xs) as [s | | | ] eqn:E; try contradiction.
  exists s. split; [reflexivity | ]. unfold nanstd in E.
  now apply fsqrt_finite_nonneg in E.
Qed.

Lemma band_around (f : float64) (e : R) :
  is_finite f -> 0 <= e ->
  fle (fsub f (Fin e)) f /\ fle f (fadd f (Fin e)).
Proof.
  destruct f as [a | | | ]; try contradiction. intros _ He. simpl. lra.
Qed.

End ForecastFacts.
Import ForecastFacts.

Module FitDouble.

(** A stand-in for the fitted model, used to run the code on sample data:
    it reproduces the data in sample and forecasts the historical mean. *)
Definition flat_fit : fitter :=
  fun ts =>
    Return {| fittedvalues := values ts;
              forecast_steps :=
                fun steps => Return (repeat (mean ts) (Z.to_nat steps)) |}.

End FitDouble.
Import FitDouble.

Module LongSeries.

(** The Friday of week [k], counted from 1970-01-02. *)
Definition week_day (k : nat) : day := (1 + 7 * Z.of_nat k)%Z.

(** Sales of 0 in even weeks and 14 in odd weeks. *)
Definition alternating (k : nat) : R := if Nat.even k then 0 else 14.

(** Two years of weekly sales: 104 weeks, none missing. *)
Definition two_years : Series :=
  map (fun k => (week_day k, Fin (alternating k))) (seq 0 104).

(** The same over 105 weeks, with the value of week 52 missing. *)
Definition two_years_gap : Series :=
  map (fun k => (week_day k, if (k =? 52)%nat then NaN else Fin (alternating k)))
      (seq 0 105).

Lemma two_years_values :
  values two_years = map Fin (map alternating (seq 0 104)).
Proof. unfold values, two_years. rewrite !map_map. reflexivity. Qed.

Lemma nanmean_Fin_list (l : list R) :
  l <> [] -> nanmean (map Fin l) = Fin (fold_left Rplus l 0 / INR (length l)).
Proof. destruct l as [ | x l]; [contradiction | intros _; apply nanmean_Fin]. Qed.

Lemma two_years_sum : fold_left Rplus (map alternating (seq 0 104)) 0 = 728.
Proof. cbv [seq map alternating Nat.even fold_left]. lra. Qed.

Lemma two_years_sum_sq : sum_sq 7 (map alternating (seq 0 104)) = 5096.
Proof. unfold sum_sq. cbv [seq map alternating Nat.even fold_left]. lra. Qed.

Lemma mean_two_years : mean two_years = Fin 7.
Proof.
  unfold mean. rewrite two_years_values, nanmean_Fin_list by discriminate.
  rewrite two_years_sum, length_map, length_seq, INR_IZR_INZ. f_equal.
  change (IZR (Z.of_nat 104)) with 104. lra.
Qed.

Lemma std_two_years : std two_years = Fin (sqrt (5096 / 103)).
Proof.
  unfold std. rewrite two_years_values.
  rewrite nanstd_Fin by (rewrite length_map, length_seq; lia).
  rewrite two_years_sum, length_map, length_seq, !INR_IZR_INZ.
  change (IZR (Z.of_nat 104)) with 104.
  change (IZR (Z.of_nat (104 - 1))) with 103.
  replace (728 / 104) with 7 by lra. now rewrite two_years_sum_sq.
Qed.

Lemma std_two_years_pos : 0 < sqrt (5096 / 103).
Proof. apply sqrt_lt_R0. lra. Qed.

Lemma two_years_gap_has_a_missing_week : In NaN (values two_years_gap).
Proof.
  unfold values, two_years_gap. rewrite map_map. apply in_map_iff.
  exists 52%nat. split; [reflexivity | ]. apply in_seq. lia.
Qed.

(** A stand-in for the fitted model on a series with a missing week: as
    statsmodels does there, the fit returns without an exception, and its
    fitted values and its forecasts are all NaN. *)
Definition nan_fit : fitter :=
  fun ts =>
    Return {| fittedvalues := map (fun _ => NaN) ts;
              forecast_steps := fun steps => Return (repeat NaN (Z.to_nat steps)) |}.

Lemma flat_fit_returns (self : InventoryOptimizer) (ts : Series) (n : Z) :
  exists fr, forecast_demand flat_fit self ts n = Return fr.
Proof. unfold forecast_demand, flat_fit. cbn [bind try_except]. eexists. reflexivity. Qed.

Lemma series_sub_self (l : list R) :
  series_sub (map Fin l) (map Fin l) = map Fin (map (fun x => x + - x) l).
Proof. induction l as [ | x l IH]; simpl; [reflexivity | now rewrite IH]. Qed.

Lemma flat_fit_two_years_spread :
  forall model, flat_fit two_years = Return model ->
    np_std (series_sub (values two_years) (fittedvalues model)) <> NaN.
Proof.
  intros model [= <-]. cbn [fittedvalues]. unfold np_std.
  rewrite two_years_values, series_sub_self.
  rewrite nanstd_Fin by (rewrite !length_map, length_seq; lia). discriminate.
Qed.

End LongSeries.
Import LongSeries.

Module BoundFacts.

Lemma nanstd_cases (ddof : nat) (xs : list float64) :
  (exists s, nanstd ddof xs = Fin s /\ 0 <= s) \/
  nanstd ddof xs = PInf \/ nanstd ddof xs = NaN.
Proof.
  unfold nanstd. destruct (nanvar ddof xs) as [a | | | ]; simpl; auto.
  destruct (Rlt_dec a 0); [auto | ].
  left. exists (sqrt a). split; [reflexivity | apply sqrt_pos].
Qed.

Lemma nth_map_of_nth_error {A B : Type} (g : A -> B) (l : list A) (i : nat)
  (x : A) (d : B) :
  nth_error l i = Some x -> nth i (map g l) d = g x.
Proof.
  intros H. apply nth_error_nth. now apply map_nth_error.
Qed.

End BoundFacts.
Import BoundFacts.

(** C2 (as the code has it). Whenever [forecast_demand] returns a Forecast
    Result for a service level in (0,1), the three sequences have the same
    length; at every index where the forecast is a finite number [f], and
    provided the spread of the in-sample residuals is not NaN,
    [lower_bound[i] <= f <= upper_bound[i]].  Where the forecast is NaN, both
    bounds are NaN. *)
Theorem C2_finite_forecasts_within_bounds :
  forall (fit : fitter) (self : InventoryOptimizer) (ts : Series) (n : Z)
         (fr : ForecastResult),
    0 < service_level self < 1 ->
    forecast_demand fit self ts n = Return fr ->
    (forall model, fit ts = Return model ->
       np_std (series_sub (values ts) (fittedvalues model)) <> NaN) ->
    length (lower_bound fr) = length (forecast fr) /\
    length (upper_bound fr) = length (forecast fr) /\
    (forall (i : nat) (f : R),
       nth_error (forecast fr) i = Some (Fin f) ->
       fle (nth i (lower_bound fr) NaN) (Fin f) /\
       fle (Fin f) (nth i (upper_bound fr) NaN)) /\
    (forall i : nat,
       nth_error (forecast fr) i = Some NaN ->
       nth_error (lower_bound fr) i = Some NaN /\
       nth_error (upper_bound fr) i = Some NaN).
Proof.
  intros fit self ts n fr Hsl Hrun Hres.
  unfold forecast_demand in Hrun.
  destruct (fit ts) as [model | e] eqn:Hfit; [ | discriminate].
  cbn [bind try_except] in Hrun.
  destruct (forecast_steps model n) as [fc | e] eqn:Hsteps; [ | discriminate].
  cbn [bind try_except] in Hrun.
  specialize (Hres model eq_refl). unfold np_std in *.
  rewrite norm_ppf_interior in Hrun by lra.
  assert (Hz : 0 < probit ((1 + service_level self) / 2)) by (apply probit_pos; lra).
  injection Hrun as <-. cbn [forecast lower_bound upper_bound].
  rewrite !length_map. split; [reflexivity | ]. split; [reflexivity | ]. split.
  - intros i f Hi.
    rewrite (nth_map_of_nth_error _ _ _ _ _ Hi), (nth_map_of_nth_error _ _ _ _ _ Hi).
    destruct (nanstd_cases 0 (series_sub (values ts) (fittedvalues model)))
      as [(s & -> & Hs) | [-> | Hnan]]; [ | | contradiction].
    + cbn [fmul fsub fadd fneg fle]. split; nra.
    + cbn [fmul]. rewrite inf_of_sign_pos by exact Hz. cbn. split; exact I.
  - intros i Hi. rewrite !nth_error_map, Hi. split; reflexivity.
Qed.

Lemma C2_witness :
  exists fr,
    forecast_demand flat_fit (init (95 / 100)) two_years 2 = Return fr /\
    (length (lower_bound fr) = length (forecast fr) /\
     length (upper_bound fr) = length (forecast fr) /\
     (forall (i : nat) (f : R),
        nth_error (forecast fr) i = Some (Fin f) ->
        fle (nth i (lower_bound fr) NaN) (Fin f) /\
        fle (Fin f) (nth i (upper_bound fr) NaN)) /\
     (forall i : nat,
        nth_error (forecast fr) i = Some NaN ->
        nth_error (lower_bound fr) i = Some NaN /\
        nth_error (upper_bound fr) i = Some NaN)).
Proof.
  destruct (flat_fit_returns (init (95 / 100)) two_years 2) as [fr Hfr].
  exists fr. split; [exact Hfr | ].
  exact (C2_finite_forecasts_within_bounds flat_fit (init (95 / 100)) two_years 2 fr
           service_level_95 Hfr flat_fit_two_years_spread).
Defined.

(** C2 as stated fails: on the series of 105 weeks with one missing week
    the fit returns, and the Forecast Result has NaN forecasts and NaN
    bounds, for which neither comparison holds. *)
Lemma C2_counterexample_nan_forecast :
  In NaN (values two_years_gap) /\
  exists fr,
    forecast_demand nan_fit (init (95 / 100)) two_years_gap 2 = Return fr /\
    forecast fr = [NaN; NaN] /\
    lower_bound fr = [NaN; NaN] /\
    upper_bound fr = [NaN; NaN] /\
    ~ fle (nth 0 (lower_bound fr) NaN) (nth 0 (forecast fr) NaN) /\
    ~ fle (nth 0 (forecast fr) NaN) (nth 0 (upper_bound fr) NaN).
Proof.
  split; [exact two_years_gap_has_a_missing_week | ].
  unfold forecast_demand, nan_fit. cbn [bind try_except forecast_steps].
  eexists. split; [reflexivity | ].
  cbn [forecast lower_bound upper_bound]. change (Z.to_nat 2) with 2%nat.
  cbn [repeat map fsub fadd nth fle]. repeat split; auto.
Qed.

(* ================================================================== *)
(** * Recommendation assembly *)
(* ================================================================== *)

Module RecommendationFacts.

(** The summary block [get_recommendations] computes from the series. *)
Definition summary_of (ts : Series) : Summary :=
  {| avg_weekly_sales := mean ts;
     std_weekly_sales := std ts;
     coefficient_of_variation := fmul (fdiv (std ts) (mean ts)) (Fin 100);
     data_points := len ts |}.

Lemma calculate_safety_stock_returns (self : InventoryOptimizer) (ts : Series) (L : Z) :
  fits_64_bits L -> exists ss, calculate_safety_stock self ts L = Return ss.
Proof. intros H. rewrite (calculate_safety_stock_in_range self ts L H). now eexists. Qed.

Lemma calculate_safety_stock_returns_inv (self : InventoryOptimizer) (ts : Series)
  (L : Z) (ss : SafetyStockResult) :
  calculate_safety_stock self ts L = Return ss -> fits_64_bits L.
Proof.
  intros H. destruct (in_ufunc_range L) eqn:E; [now apply in_ufunc_range_iff | ].
  unfold calculate_safety_stock, np_sqrt in H. rewrite E in H. discriminate.
Qed.

Lemma estimate_cost_savings_returns (self : InventoryOptimizer) (ts : Series) (k : R) :
  exists cs, estimate_cost_savings self ts k = Return cs.
Proof.
  unfold estimate_cost_savings, default_lead_time_days.
  rewrite (calculate_safety_stock_in_range self ts 7 seven_fits). now eexists.
Qed.

(** A recommendation is returned exactly when the forecast is, and is then
    made of the results of the three methods and the summary block. *)
Lemma get_recommendations_inv (fit : fitter) (self : InventoryOptimizer)
  (ts : Series) (n L : Z) (rec : Recommendation) :
  get_recommendations fit self ts n L = Return rec ->
  forecast_demand fit self ts n = Return (rec_forecast rec) /\
  calculate_safety_stock self ts L = Return (rec_safety_stock rec) /\
  estimate_cost_savings self ts default_buffer_multiplier
  = Return (rec_cost_savings rec) /\
  rec_summary rec = summary_of ts.
Proof.
  unfold get_recommendations.
  destruct (forecast_demand fit self ts n) as [fc | e]; [ | discriminate].
  cbn [bind].
  destruct (calculate_safety_stock self ts L) as [ss | e]; [ | discriminate].
  cbn [bind].
  destruct (estimate_cost_savings self ts default_buffer_multiplier) as [cs | e];
    [ | discriminate].
  cbn [bind]. intros [= <-]. repeat split.
Qed.

Lemma get_recommendations_intro (fit : fitter) (self : InventoryOptimizer)
  (ts : Series) (n L : Z) (fc : ForecastResult) (ss : SafetyStockResult)
  (cs : CostSavingsResult) :
  forecast_demand fit self ts n = Return fc ->
  calculate_safety_stock self ts L = Return ss ->
  estimate_cost_savings self ts default_buffer_multiplier = Return cs ->
  get_recommendations fit self ts n L
  = Return {| rec_forecast := fc; rec_safety_stock := ss;
              rec_cost_savings := cs; rec_summary := summary_of ts |}.
Proof.
  intros Hfc Hss Hcs. unfold get_recommendations.
  rewrite Hfc. cbn [bind]. rewrite Hss. cbn [bind]. rewrite Hcs. reflexivity.
Qed.

Lemma get_recommendations_raise (fit : fitter) (self : InventoryOptimizer)
  (ts : Series) (n L : Z) (e : exn) :
  forecast_demand fit self ts n = Raise e ->
  get_recommendations fit self ts n L = Raise e.
Proof. intros H. unfold get_recommendations. now rewrite H. Qed.

(** The cost-savings figures, for a series with defined statistics. *)
Lemma estimate_cost_savings_formula (self : InventoryOptimizer) (ts : Series)
  (k m s : R) (cs : CostSavingsResult) :
  mean ts = Fin m -> std ts = Fin s -> 0 < service_level self < 1 ->
  estimate_cost_savings self ts k = Return cs ->
  current_safety_stock cs = Fin (m * k) /\
  optimized_safety_stock cs
  = Fin (probit (service_level self) * (s / 7) * sqrt 7 * 7) /\
  reduction cs = fsub (current_safety_stock cs) (optimized_safety_stock cs) /\
  reduction_percentage cs
  = fmul (fdiv (reduction cs) (current_safety_stock cs)) (Fin 100).
Proof.
  intros Hm Hs Hsl. unfold estimate_cost_savings, default_lead_time_days.
  rewrite (calculate_safety_stock_in_range self ts 7 seven_fits).
  cbn [bind safety_stock]. intros [= <-].
  cbn [current_safety_stock optimized_safety_stock reduction reduction_percentage].
  rewrite Hm, Hs, norm_ppf_interior by exact Hsl.
  rewrite fdiv_Fin by lra. unfold default_lead_time_days, of_int.
  destruct (Rlt_dec 7 0); [lra | ]. repeat split.
Qed.

(** With the stand-in fit that forecasts the mean of the last weeks, a
    recommendation is returned for every lead time numpy accepts. *)
Lemma flat_fit_recommends (self : InventoryOptimizer) (ts : Series) (n L : Z) :
  fits_64_bits L ->
  exists rec, get_recommendations flat_fit self ts n L = Return rec.
Proof.
  intros HL.
  destruct (flat_fit_returns self ts n) as [fc Hfc].
  destruct (calculate_safety_stock_returns self ts L HL) as [ss Hss].
  destruct (estimate_cost_savings_returns self ts default_buffer_multiplier)
    as [cs Hcs].
  eexists. exact (get_recommendations_intro _ _ _ _ _ _ _ _ Hfc Hss Hcs).
Qed.

Lemma fourteen_fits : fits_64_bits 14.
Proof. unfold fits_64_bits, int64_min, uint64_end. lia. Qed.

Lemma probit_nonzero (p : R) : 0 < p < 1 -> p <> 1 / 2 -> probit p <> 0.
Proof.
  intros Hp Hne. destruct (Rlt_dec p (1 / 2)) as [Hlt | Hge].
  - pose proof (probit_neg p ltac:(lra)). lra.
  - pose proof (probit_pos p ltac:(lra)). lra.
Qed.

End RecommendationFacts.
Import RecommendationFacts.

(** C3. Whenever [get_recommendations] returns for a lead time other than
    the default 7, on a series with a defined mean and a positive standard
    deviation and a service level in (0,1) other than 1/2, the Safety Stock
    Result is computed with the lead time asked for while the
    [optimized_safety_stock] of the Cost Savings Result is 7 times the safety
    stock computed with the default 7 days: it is not 7 times the safety
    stock returned beside it.  The other figures are as stated:
    [current_safety_stock] is the weekly mean times 1.5, [reduction] is the
    difference, [reduction_percentage] its share of the current figure times
    100, nothing clamped. *)
Theorem C3_cost_savings_ignore_lead_time
  (fit : fitter) (self : InventoryOptimizer) (ts : Series) (n L : Z)
  (m s : R) (rec : Recommendation) :
  mean ts = Fin m -> std ts = Fin s -> 0 < s ->
  0 < service_level self < 1 -> service_level self <> 1 / 2 ->
  (0 <= L)%Z -> L <> 7%Z ->
  get_recommendations fit self ts n L = Return rec ->
  safety_stock (rec_safety_stock rec)
  = Fin (probit (service_level self) * (s / 7) * sqrt (IZR L)) /\
  current_safety_stock (rec_cost_savings rec) = Fin (m * (15 / 10)) /\
  optimized_safety_stock (rec_cost_savings rec)
  = Fin (probit (service_level self) * (s / 7) * sqrt 7 * 7) /\
  reduction (rec_cost_savings rec)
  = fsub (current_safety_stock (rec_cost_savings rec))
         (optimized_safety_stock (rec_cost_savings rec)) /\
  reduction_percentage (rec_cost_savings rec)
  = fmul (fdiv (reduction (rec_cost_savings rec))
               (current_safety_stock (rec_cost_savings rec))) (Fin 100) /\
  optimized_safety_stock (rec_cost_savings rec)
  <> fmul (safety_stock (rec_safety_stock rec)) (Fin 7).
Proof.
  intros Hm Hs Hspos Hsl Hhalf HL0 HL7 Hrec.
  apply get_recommendations_inv in Hrec.
  destruct Hrec as (_ & Hss & Hcs & _).
  pose proof (calculate_safety_stock_returns_inv _ _ _ _ Hss) as Hfits.
  destruct (calculate_safety_stock_finite self ts L m s Hm Hs Hsl HL0
              (proj2 Hfits)) as (ss & Hss' & Hsafe & _).
  rewrite Hss in Hss'. injection Hss' as <-.
  destruct (estimate_cost_savings_formula _ _ _ _ _ _ Hm Hs Hsl Hcs)
    as (Hcur & Hopt & Hred & Hpct).
  unfold default_buffer_multiplier in Hcur.
  repeat split; try assumption.
  rewrite Hopt, Hsafe. cbn [fmul]. intros [= Heq].
  pose proof (probit_nonzero _ Hsl Hhalf) as Hz.
  assert (Hroot : sqrt 7 = sqrt (IZR L)).
  { apply (Rmult_eq_reg_l (probit (service_level self) * (s / 7) * 7)).
    - lra.
    - apply Rmult_integral_contrapositive_currified; [ | lra].
      apply Rmult_integral_contrapositive_currified; [exact Hz | ].
      apply Rgt_not_eq. apply Rdiv_lt_0_compat; lra. }
  apply sqrt_inj in Hroot; [ | lra | now apply IZR_le].
  apply HL7. apply eq_IZR. now rewrite <- Hroot.
Qed.

(** The lead time 14 on the two years of weekly sales. *)
Lemma C3_witness :
  exists rec,
    get_recommendations flat_fit (init (95 / 100)) two_years 2 14 = Return rec /\
    optimized_safety_stock (rec_cost_savings rec)
    <> fmul (safety_stock (rec_safety_stock rec)) (Fin 7).
Proof.
  destruct (flat_fit_recommends (init (95 / 100)) two_years 2 14 fourteen_fits)
    as [rec Hrec].
  exists rec. split; [exact Hrec | ].
  apply (C3_cost_savings_ignore_lead_time flat_fit (init (95 / 100)) two_years 2 14
           7 (sqrt (5096 / 103)) rec mean_two_years std_two_years
           std_two_years_pos service_level_95).
  - cbn [service_level init]. lra.
  - lia.
  - lia.
  - exact Hrec.
Defined.

(* ================================================================== *)
(** * Undefined statistics and unchecked parameters *)
(* ================================================================== *)

Module PolicyFacts.

(** A series of two weeks whose values are both missing. *)
Definition missing_weeks : Series := [(1%Z, NaN); (8%Z, NaN)].

Lemma mean_all_missing (ts : Series) : dropna (values ts) = [] -> mean ts = NaN.
Proof. intros H. unfold mean, nanmean. now rewrite H. Qed.

Lemma std_all_missing (ts : Series) : dropna (values ts) = [] -> std ts = NaN.
Proof. intros H. unfold std, nanstd, nanvar. now rewrite H. Qed.

(** Without a present value the four figures are not-a-number, for a lead
    time numpy accepts. *)
Lemma calculate_safety_stock_all_missing (self : InventoryOptimizer) (ts : Series) (L : Z) :
  dropna (values ts) = [] -> fits_64_bits L ->
  exists r, calculate_safety_stock self ts L = Return r /\
    safety_stock r = NaN /\ reorder_point r = NaN /\
    average_daily_demand r = NaN /\ demand_std_dev r = NaN.
Proof.
  intros H HL. rewrite (calculate_safety_stock_in_range self ts L HL).
  rewrite (mean_all_missing ts H), (std_all_missing ts H).
  eexists. split; [reflexivity | ].
  cbn [safety_stock reorder_point average_daily_demand demand_std_dev fdiv].
  rewrite fmul_NaN_r. cbn [fmul fadd]. repeat split.
Qed.

(** The only exception of [calculate_safety_stock] is the [TypeError] of
    the square root, and it is not a [ValueError]. *)
Lemma calculate_safety_stock_raise_inv (self : InventoryOptimizer) (ts : Series)
  (L : Z) (e : exn) :
  calculate_safety_stock self ts L = Raise e ->
  e = sqrt_type_error /\ ~ fits_64_bits L.
Proof.
  intros H. destruct (in_ufunc_range L) eqn:E.
  - apply in_ufunc_range_iff in E.
    rewrite (calculate_safety_stock_in_range self ts L E) in H. discriminate.
  - assert (Hno : ~ fits_64_bits L).
    { intros Hf. apply in_ufunc_range_iff in Hf. congruence. }
    rewrite (calculate_safety_stock_out_of_range self ts L Hno) in H.
    injection H as <-. now split.
Qed.

(** [forecast_demand] raises nothing but the [ValueError] it makes of an
    exception of the fit or of the forecast. *)
Lemma forecast_demand_raise_inv (fit : fitter) (self : InventoryOptimizer)
  (ts : Series) (n : Z) (e : exn) :
  forecast_demand fit self ts n = Raise e ->
  exists e0, e = ValueError ("Error in forecasting: " ++ str e0) /\
    (fit ts = Raise e0 \/
     exists model, fit ts = Return model /\ forecast_steps model n = Raise e0).
Proof.
  unfold forecast_demand.
  destruct (fit ts) as [model | e0] eqn:Hfit; cbn [bind try_except].
  - destruct (forecast_steps model n) as [fc | e0] eqn:Hsteps;
      cbn [bind try_except]; [discriminate | ].
    intros [= <-]. exists e0. split; [reflexivity | ].
    right. now exists model.
  - intros [= <-]. exists e0. split; [reflexivity | now left].
Qed.

Lemma forecast_demand_fit_raises (fit : fitter) (self : InventoryOptimizer)
  (ts : Series) (n : Z) (e0 : exn) :
  fit ts = Raise e0 ->
  forecast_demand fit self ts n
  = Raise (ValueError ("Error in forecasting: " ++ str e0)).
Proof. intros H. unfold forecast_demand. now rewrite H. Qed.

Lemma forecast_demand_steps_raise (fit : fitter) (self : InventoryOptimizer)
  (ts : Series) (n : Z) (model : HoltWintersResults) (e0 : exn) :
  fit ts = Return model -> forecast_steps model n = Raise e0 ->
  forecast_demand fit self ts n
  = Raise (ValueError ("Error in forecasting: " ++ str e0)).
Proof.
  intros H1 H2. unfold forecast_demand. rewrite H1. cbn [bind]. now rewrite H2.
Qed.


End PolicyFacts.
Import PolicyFacts.

(** C4 (as the code has it). A series with no present value does not make
    [calculate_safety_stock] fail with a validation error: for a lead time
    within numpy's 64-bit range it returns a Safety Stock Result whose safety
    stock, reorder point, daily demand and daily spread are not-a-number, and
    for a lead time outside that range it raises the [TypeError] of the
    square root, as it does on every series.  [get_recommendations] on such
    a series raises either what [forecast_demand] raises (a [ValueError]
    made of the exception of the fit or forecast) or that [TypeError]; when
    the forecast is returned and the lead time is in range, a Recommendation
    with not-a-number figures is returned. *)
Theorem C4_undefined_statistics_give_nan :
  forall (self : InventoryOptimizer) (ts : Series) (L : Z),
    dropna (values ts) = [] ->
    (fits_64_bits L ->
     exists r, calculate_safety_stock self ts L = Return r /\
       safety_stock r = NaN /\ reorder_point r = NaN /\
       average_daily_demand r = NaN /\ demand_std_dev r = NaN) /\
    (~ fits_64_bits L -> calculate_safety_stock self ts L = Raise sqrt_type_error) /\
    (forall msg, calculate_safety_stock self ts L <> Raise (ValueError msg)) /\
    forall (fit : fitter) (n : Z),
      (forall e, get_recommendations fit self ts n L = Raise e ->
         (forecast_demand fit self ts n = Raise e /\ exists msg, e = ValueError msg) \/
         (e = sqrt_type_error /\ ~ fits_64_bits L /\
          exists fc, forecast_demand fit self ts n = Return fc)) /\
      (forall fc, forecast_demand fit self ts n = Return fc -> fits_64_bits L ->
         exists rec, get_recommendations fit self ts n L = Return rec /\
           safety_stock (rec_safety_stock rec) = NaN /\
           reorder_point (rec_safety_stock rec) = NaN /\
           avg_weekly_sales (rec_summary rec) = NaN /\
           std_weekly_sales (rec_summary rec) = NaN /\
           coefficient_of_variation (rec_summary rec) = NaN).
Proof.
  intros self ts L Hnone.
  split; [exact (calculate_safety_stock_all_missing self ts L Hnone) | ].
  split; [exact (calculate_safety_stock_out_of_range self ts L) | ].
  split.
  { intros msg H. apply calculate_safety_stock_raise_inv in H.
    destruct H as [H _]. discriminate. }
  intros fit n. split.
  - intros e He. unfold get_recommendations in He.
    destruct (forecast_demand fit self ts n) as [fc | e'] eqn:Hfc.
    + cbn [bind] in He. right.
      destruct (calculate_safety_stock self ts L) as [ss | e'] eqn:Hss.
      * cbn [bind] in He.
        destruct (estimate_cost_savings_returns self ts default_buffer_multiplier)
          as (cs & Hcs).
        rewrite Hcs in He. discriminate.
      * cbn [bind] in He. injection He as <-.
        destruct (calculate_safety_stock_raise_inv _ _ _ _ Hss) as [-> Hno].
        repeat split; [exact Hno | now exists fc].
    + cbn [bind] in He. injection He as <-. left. split; [reflexivity | ].
      destruct (forecast_demand_raise_inv _ _ _ _ _ Hfc) as (e0 & -> & _).
      now eexists.
  - intros fc Hfc HL.
    destruct (calculate_safety_stock_all_missing self ts L Hnone HL)
      as (r & Hr & Hss & Hrp & Hdd & Hsd).
    destruct (estimate_cost_savings_returns self ts default_buffer_multiplier)
      as (cs & Hcs).
    eexists. split; [apply (get_recommendations_intro _ _ _ _ _ _ _ _ Hfc Hr Hcs) | ].
    cbn [rec_safety_stock rec_summary]. unfold summary_of.
    cbn [avg_weekly_sales std_weekly_sales coefficient_of_variation].
    rewrite (mean_all_missing ts Hnone), (std_all_missing ts Hnone).
    repeat split; assumption.
Qed.

(** The series of two missing weeks at the default lead time. *)
Lemma C4_witness :
  exists r, calculate_safety_stock (init (95 / 100)) missing_weeks 7 = Return r /\
    safety_stock r = NaN /\ reorder_point r = NaN /\
    average_daily_demand r = NaN /\ demand_std_dev r = NaN.
Proof.
  exact (proj1 (C4_undefined_statistics_give_nan (init (95 / 100)) missing_weeks 7
                  eq_refl) seven_fits).
Defined.

(** C4 as stated fails: on the series of two missing weeks
    [calculate_safety_stock] raises nothing and returns not-a-number. *)
Lemma C4_counterexample_all_missing :
  dropna (values missing_weeks) = [] /\
  ~ raises (calculate_safety_stock (init (95 / 100)) missing_weeks 7) /\
  exists r, calculate_safety_stock (init (95 / 100)) missing_weeks 7 = Return r /\
    safety_stock r = NaN /\ reorder_point r = NaN /\
    average_daily_demand r = NaN /\ demand_std_dev r = NaN.
Proof.
  split; [reflexivity | ]. split.
  - intros [e He].
    rewrite (calculate_safety_stock_in_range _ _ _ seven_fits) in He. discriminate.
  - apply calculate_safety_stock_all_missing; [reflexivity | exact seven_fits].
Qed.

(* ================================================================== *)
(** * Sign of the safety stock *)
(* ================================================================== *)

Module SignFacts.

(** Every value of the series is missing or at least zero. *)
Definition nonneg_demand (ts : Series) : Prop :=
  Forall (fun v => v = NaN \/ fle (Fin 0) v) (values ts).

Lemma fadd_nonneg (x y : float64) :
  fle (Fin 0) x -> fle (Fin 0) y -> fle (Fin 0) (fadd x y).
Proof. destruct x, y; simpl; try tauto; lra. Qed.

Lemma fold_fadd_nonneg (v : list float64) (acc : float64) :
  fle (Fin 0) acc -> Forall (fle (Fin 0)) v -> fle (Fin 0) (fold_left fadd v acc).
Proof.
  revert acc. induction v as [ | x v IH]; intros acc Hacc Hv; simpl; [exact Hacc | ].
  inversion Hv; subst. apply IH; [now apply fadd_nonneg | assumption].
Qed.

Lemma dropna_nonneg (xs : list float64) :
  Forall (fun v => v = NaN \/ fle (Fin 0) v) xs -> Forall (fle (Fin 0)) (dropna xs).
Proof.
  intros H. apply Forall_forall. intros x Hx.
  apply filter_In in Hx. destruct Hx as [Hin Hna].
  rewrite Forall_forall in H. destruct (H x Hin) as [-> | Hle]; [discriminate | exact Hle].
Qed.

Lemma mean_nonneg (ts : Series) (m : R) :
  nonneg_demand ts -> mean ts = Fin m -> 0 <= m.
Proof.
  intros Hts. unfold mean, nanmean.
  pose proof (dropna_nonneg _ Hts) as Hv.
  destruct (dropna (values ts)) as [ | x v] eqn:E; [discriminate | ].
  pose proof (fold_fadd_nonneg (x :: v) (Fin 0) (fle_refl_Fin 0) Hv) as Hsum.
  fold (fsum (x :: v)) in Hsum.
  destruct (fsum (x :: v)) as [a | | | ]; try contradiction.
  - unfold of_nat. rewrite fdiv_Fin by apply INR_length_pos. intros [= <-].
    simpl in Hsum. apply Rmult_le_pos; [exact Hsum | ].
    left. apply Rinv_0_lt_compat. apply (lt_0_INR (length (x :: v))). simpl. lia.
  - unfold of_nat. cbn [fdiv]. destruct (Rlt_dec _ 0); discriminate.
Qed.

Lemma std_nonneg (ts : Series) (s : R) : std ts = Fin s -> 0 <= s.
Proof. unfold std, nanstd. apply fsqrt_finite_nonneg. Qed.

Lemma sqrt_IZR_zero (L : Z) : (0 <= L)%Z -> sqrt (IZR L) = 0 -> L = 0%Z.
Proof.
  intros HL H. apply sqrt_eq_0 in H; [now apply eq_IZR_R0 | now apply IZR_le].
Qed.

End SignFacts.
Import SignFacts.

(** C5 (as the code has it). For a series of non-negative demand with
    defined mean and standard deviation [s], a service level in (0,1) and a
    lead time [L >= 0] that fits numpy's 64 bits, the reorder point is at
    least the safety stock; the safety stock is at least zero exactly when
    the service level is 1/2 or more, [s = 0] or [L = 0], and it is zero
    exactly when [s = 0], [L = 0] or the service level is 1/2. *)
Theorem C5_safety_stock_sign :
  forall (self : InventoryOptimizer) (ts : Series) (L : Z) (m s : R),
    nonneg_demand ts ->
    mean ts = Fin m ->
    std ts = Fin s ->
    0 < service_level self < 1 ->
    (0 <= L)%Z ->
    (L < uint64_end)%Z ->
    exists r, calculate_safety_stock self ts L = Return r /\
      fle (safety_stock r) (reorder_point r) /\
      (fle (Fin 0) (safety_stock r) <->
       1 / 2 <= service_level self \/ s = 0 \/ L = 0%Z) /\
      (safety_stock r = Fin 0 <->
       s = 0 \/ L = 0%Z \/ service_level self = 1 / 2).
Proof.
  intros self ts L m s Hts Hm Hs Hsl HL Hmax.
  destruct (calculate_safety_stock_finite self ts L m s Hm Hs Hsl HL Hmax)
    as (r & Hr & Hss & Hrp).
  exists r. split; [exact Hr | ].
  pose proof (mean_nonneg ts m Hts Hm) as Hm0.
  pose proof (std_nonneg ts s Hs) as Hs0.
  pose proof (sqrt_pos (IZR L)) as Hq0.
  pose proof (IZR_le _ _ HL) as HL0.
  rewrite Hss, Hrp. cbn [fle]. split; [ | split; split].
  - assert (0 <= m / 7 * IZR L) by (apply Rmult_le_pos; lra). lra.
  - intros Hge.
    destruct (Rle_dec (1 / 2) (service_level self)) as [Hhalf | Hhalf];
      [now left | right].
    destruct (Req_dec s 0) as [Hs1 | Hs1]; [now left | right].
    destruct (Z.eq_dec L 0) as [HL1 | HL1]; [exact HL1 | exfalso].
    assert (Hz : probit (service_level self) < 0) by (apply probit_neg; lra).
    assert (Hq : 0 < sqrt (IZR L)).
    { apply sqrt_lt_R0. apply (IZR_lt 0). lia. }
    assert (Hk : 0 < s / 7 * sqrt (IZR L)) by (apply Rmult_lt_0_compat; lra).
    nra.
  - intros [Hhalf | [-> | ->]].
    + pose proof (probit_nonneg (service_level self) (conj Hhalf (proj2 Hsl))) as Hz0.
      apply Rmult_le_pos; [ | exact Hq0]. apply Rmult_le_pos; [exact Hz0 | lra].
    + right. unfold Rdiv. ring.
    + right. rewrite sqrt_0. ring.
  - intros [= H0].
    apply Rmult_integral in H0. destruct H0 as [H0 | H0].
    + apply Rmult_integral in H0. destruct H0 as [H0 | H0].
      * right. right.
        destruct (Req_dec (service_level self) (1 / 2)) as [Heq | Hne];
          [exact Heq | ].
        now destruct (probit_nonzero _ Hsl Hne).
      * left. lra.
    + right. left. now apply sqrt_IZR_zero.
  - intros [-> | [-> | Heq]]; f_equal.
    + unfold Rdiv. ring.
    + rewrite sqrt_0. ring.
    + rewrite Heq, probit_half. ring.
Qed.

Module C5Sample.

Lemma nonneg_two_weeks : nonneg_demand two_weeks.
Proof.
  unfold nonneg_demand. cbn [values two_weeks map snd].
  constructor; [right; simpl; lra | ].
  constructor; [right; simpl; lra | constructor].
Qed.

Lemma lead_time_7 : (0 <= 7)%Z.
Proof. discriminate. Qed.

Lemma lead_time_0 : (0 <= 0)%Z.
Proof. discriminate. Qed.

Lemma zero_below_end : (0 < uint64_end)%Z.
Proof. reflexivity. Qed.

(** One week of sales. *)
Definition single_week : Series := [(1%Z, Fin 7)].

Lemma nonneg_single_week : nonneg_demand single_week.
Proof.
  unfold nonneg_demand. cbn [values single_week map snd].
  constructor; [right; simpl; lra | constructor].
Qed.

Lemma std_single_week : std single_week = NaN.
Proof. reflexivity. Qed.

End C5Sample.

Lemma C5_witness :
  exists r, calculate_safety_stock (init (95 / 100)) two_weeks 7 = Return r /\
    fle (safety_stock r) (reorder_point r) /\
    (fle (Fin 0) (safety_stock r) <->
     1 / 2 <= service_level (init (95 / 100)) \/ sqrt 98 = 0 \/ 7%Z = 0%Z) /\
    (safety_stock r = Fin 0 <->
     sqrt 98 = 0 \/ 7%Z = 0%Z \/ service_level (init (95 / 100)) = 1 / 2).
Proof.
  exact (C5_safety_stock_sign (init (95 / 100)) two_weeks 7 7 (sqrt 98)
           C5Sample.nonneg_two_weeks mean_two_weeks std_two_weeks
           service_level_95 C5Sample.lead_time_7 seven_below_end).
Defined.

(** C5 as stated fails, in four ways.  The demand of the sample series is
    non-negative, the service level 0.3 lies in (0,1) and the lead time is 7
    days, yet the safety stock is below zero.  At the lead time 0 the safety
    stock is zero although the demand varies.  On one week of sales the
    standard deviation is undefined and the safety stock is not-a-number,
    neither at least zero nor at most the reorder point.  At the lead time
    2^64 no result is returned. *)
Lemma C5_counterexample_sign_zero_and_undefined :
  (nonneg_demand two_weeks /\ 0 < 3 / 10 < 1 /\ (0 <= 7)%Z /\
   exists r, calculate_safety_stock (init (3 / 10)) two_weeks 7 = Return r /\
     flt (safety_stock r) (Fin 0) /\ ~ fle (Fin 0) (safety_stock r)) /\
  (std two_weeks = Fin (sqrt 98) /\ 0 < sqrt 98 /\
   exists r, calculate_safety_stock (init (95 / 100)) two_weeks 0 = Return r /\
     safety_stock r = Fin 0) /\
  (nonneg_demand C5Sample.single_week /\
   exists r,
     calculate_safety_stock (init (95 / 100)) C5Sample.single_week 7 = Return r /\
     safety_stock r = NaN /\
     ~ fle (Fin 0) (safety_stock r) /\
     ~ fle (safety_stock r) (reorder_point r)) /\
  ((0 <= uint64_end)%Z /\
   calculate_safety_stock (init (95 / 100)) two_weeks uint64_end
   = Raise sqrt_type_error).
Proof.
  split; [ | split; [ | split]].
  - split; [exact C5Sample.nonneg_two_weeks | ].
    split; [lra | ]. split; [discriminate | ].
    assert (Hsl : 0 < service_level (init (3 / 10)) < 1)
      by (cbn [service_level init]; lra).
    destruct (calculate_safety_stock_finite (init (3 / 10)) two_weeks 7 7 (sqrt 98)
                mean_two_weeks std_two_weeks Hsl C5Sample.lead_time_7 seven_below_end)
      as (r & Hr & Hss & _).
    cbn [service_level init] in Hss.
    exists r. split; [exact Hr | ]. rewrite Hss. cbn [flt fle].
    assert (Hz : probit (3 / 10) < 0) by (apply probit_neg; lra).
    pose proof sqrt_98_pos as H98.
    assert (H7 : 0 < sqrt 7) by (apply sqrt_lt_R0; lra).
    assert (Hk : 0 < sqrt 98 / 7 * sqrt 7) by (apply Rmult_lt_0_compat; lra).
    assert (Hneg : probit (3 / 10) * (sqrt 98 / 7) * sqrt 7 < 0) by nra.
    split; lra.
  - split; [exact std_two_weeks | ]. split; [exact sqrt_98_pos | ].
    destruct (calculate_safety_stock_finite (init (95 / 100)) two_weeks 0 7 (sqrt 98)
                mean_two_weeks std_two_weeks service_level_95 C5Sample.lead_time_0
                C5Sample.zero_below_end)
      as (r & Hr & Hss & _).
    exists r. split; [exact Hr | ]. rewrite Hss. f_equal.
    rewrite sqrt_0. ring.
  - split; [exact C5Sample.nonneg_single_week | ].
    rewrite (calculate_safety_stock_in_range _ _ _ seven_fits).
    eexists. split; [reflexivity | ].
    cbn [safety_stock reorder_point]. rewrite C5Sample.std_single_week.
    cbn [fdiv]. rewrite fmul_NaN_r. cbn [fmul]. rewrite fadd_NaN_r.
    cbn [fle]. repeat split; auto.
  - split; [discriminate | ].
    apply calculate_safety_stock_out_of_range. exact end_does_not_fit.
Qed.

Module HorizonFacts.





End HorizonFacts.
Import HorizonFacts.




(* ================================================================== *)
(** * Series preparation *)
(* ================================================================== *)

Module PrepareFacts.

(** The rows of a frame for one store and department. *)
Definition matches (store dept : Z) (r : SalesRecord) : bool :=
  (Store r =? store)%Z && (Dept r =? dept)%Z.

(** The days on which the frame has a record for the store and department. *)
Definition observed_days (df : DataFrame) (store dept : Z) : list day :=
  map (fun r => day_of (Date r)) (filter (matches store dept) df).

(** The frame read from the CSV file: store 1, department 1, two Fridays. *)
Definition sales_frame : DataFrame :=
  [ {| Store := 1; Dept := 1; Date := DateStr 1%Z; Weekly_Sales := Fin 0 |};
    {| Store := 1; Dept := 1; Date := DateStr 8%Z; Weekly_Sales := Fin 14 |} ].

(** The same with the second record a week later: the week between has no
    record. *)
Definition gap_frame : DataFrame :=
  [ {| Store := 1; Dept := 1; Date := DateStr 1%Z; Weekly_Sales := Fin 0 |};
    {| Store := 1; Dept := 1; Date := DateStr 15%Z; Weekly_Sales := Fin 14 |} ].

Definition gap_weeks : Series := [(1%Z, Fin 0); (8%Z, NaN); (15%Z, Fin 14)].

Lemma prepare_sales_frame :
  prepare_data sales_frame 1 1
  = ([ {| Store := 1; Dept := 1; Date := Timestamp 1%Z; Weekly_Sales := Fin 0 |};
       {| Store := 1; Dept := 1; Date := Timestamp 8%Z; Weekly_Sales := Fin 14 |} ],
     Return two_weeks).
Proof. reflexivity. Qed.

Lemma prepare_gap_frame : snd (prepare_data gap_frame 1 1) = Return gap_weeks.
Proof. reflexivity. Qed.

Lemma insert_sorted_In (r x : SalesRecord) (l : DataFrame) :
  In x (insert_sorted r l) <-> x = r \/ In x l.
Proof.
  induction l as [ | y l IH]; simpl.
  - intuition congruence.
  - destruct (key_leb r y); simpl; [intuition congruence | ].
    rewrite IH. intuition congruence.
Qed.

Lemma sort_values_In (x : SalesRecord) (df : DataFrame) :
  In x (sort_values df) <-> In x df.
Proof.
  unfold sort_values. induction df as [ | r df IH]; simpl; [tauto | ].
  rewrite insert_sorted_In, IH. intuition congruence.
Qed.

(** The rows that go into the series: those of the store and department,
    with the day of their date. *)
Lemma prepared_row_In (df : DataFrame) (store dept : Z) (r' : SalesRecord) :
  In r' (filter (matches store dept)
           (sort_values (map (fun r => set_Date r (to_datetime (Date r))) df)))
  <-> exists r, In r df /\ matches store dept r = true /\
        r' = set_Date r (to_datetime (Date r)).
Proof.
  rewrite filter_In, sort_values_In, in_map_iff. split.
  - intros [(r & <- & Hin) Hm]. exists r. repeat split; assumption.
  - intros (r & Hin & Hm & ->). split; [now exists r | exact Hm].
Qed.

Lemma prepared_days_In (df : DataFrame) (store dept : Z) (d : day) :
  In d (map fst
          (map (fun r => (day_of (Date r), Weekly_Sales r))
             (filter (matches store dept)
                (sort_values (map (fun r => set_Date r (to_datetime (Date r))) df)))))
  <-> In d (observed_days df store dept).
Proof.
  unfold observed_days. rewrite map_map, !in_map_iff. cbn [fst]. split.
  - intros (r' & <- & Hin). apply prepared_row_In in Hin.
    destruct Hin as (r & Hin & Hm & ->). exists r. split; [reflexivity | ].
    apply filter_In. now split.
  - intros (r & <- & Hin). apply filter_In in Hin. destruct Hin as [Hin Hm].
    exists (set_Date r (to_datetime (Date r))). split; [reflexivity | ].
    apply prepared_row_In. now exists r.
Qed.

Lemma asfreq_index (s : Series) (ts : Series) :
  asfreq_W_FRI s = Return ts ->
  s = [] /\ ts = [] \/
  exists d0, In d0 (index s) /\
    index ts = date_range_W_FRI (index_min d0 (index s)) (index_max d0 (index s)).
Proof.
  unfold asfreq_W_FRI. destruct s as [ | [d0 v0] s']; [intros [= <-]; now left | ].
  destruct (has_duplicates _); [discriminate | ]. intros [= <-]. right.
  exists d0. split; [now left | ].
  unfold index at 1. rewrite map_map. cbn [fst]. apply map_id.
Qed.

Lemma fold_min_spec (l : list day) (d0 : day) :
  In (fold_left Z.min l d0) (d0 :: l) /\
  forall d, In d (d0 :: l) -> (fold_left Z.min l d0 <= d)%Z.
Proof.
  revert d0. induction l as [ | x l IH]; intros d0; simpl.
  - split; [now left | intros d [<- | []]; lia].
  - destruct (IH (Z.min d0 x)) as [Hin Hle]. split.
    + destruct Hin as [Hin | Hin]; [ | now right; right].
      rewrite <- Hin. destruct (Z.min_spec d0 x) as [[_ ->] | [_ ->]]; auto.
    + intros d Hd. pose proof (Hle (Z.min d0 x) (or_introl eq_refl)) as H0.
      destruct Hd as [<- | [<- | Hd]]; [lia | lia | ].
      apply Hle. now right.
Qed.

Lemma fold_max_spec (l : list day) (d0 : day) :
  In (fold_left Z.max l d0) (d0 :: l) /\
  forall d, In d (d0 :: l) -> (d <= fold_left Z.max l d0)%Z.
Proof.
  revert d0. induction l as [ | x l IH]; intros d0; simpl.
  - split; [now left | intros d [<- | []]; lia].
  - destruct (IH (Z.max d0 x)) as [Hin Hle]. split.
    + destruct Hin as [Hin | Hin]; [ | now right; right].
      rewrite <- Hin. destruct (Z.max_spec d0 x) as [[_ ->] | [_ ->]]; auto.
    + intros d Hd. pose proof (Hle (Z.max d0 x) (or_introl eq_refl)) as H0.
      destruct Hd as [<- | [<- | Hd]]; [lia | lia | ].
      apply Hle. now right.
Qed.

Lemma index_min_spec (l : list day) (d0 : day) :
  In d0 l ->
  In (index_min d0 l) l /\ forall d, In d l -> (index_min d0 l <= d)%Z.
Proof.
  intros Hd0. unfold index_min. destruct (fold_min_spec l d0) as [Hin Hle]. split.
  - destruct Hin as [<- | Hin]; assumption.
  - intros d Hd. apply Hle. now right.
Qed.

Lemma index_max_spec (l : list day) (d0 : day) :
  In d0 l ->
  In (index_max d0 l) l /\ forall d, In d l -> (d <= index_max d0 l)%Z.
Proof.
  intros Hd0. unfold index_max. destruct (fold_max_spec l d0) as [Hin Hle]. split.
  - destruct Hin as [<- | Hin]; assumption.
  - intros d Hd. apply Hle. now right.
Qed.

(** Between two Fridays the grid has one point a week, both ends counted. *)
Lemma date_range_length (lo hi : day) :
  (lo mod 7 = 1)%Z -> (lo <= hi)%Z ->
  length (date_range_W_FRI lo hi) = (Z.to_nat ((hi - lo) / 7) + 1)%nat.
Proof.
  intros Hfri Hle. unfold date_range_W_FRI, roll_forward_friday.
  assert (H0 : ((1 - lo) mod 7 = 0)%Z).
  { rewrite Zminus_mod, Hfri. reflexivity. }
  rewrite H0, Z.add_0_r.
  destruct (Z.ltb_spec hi lo); [lia | ].
  now rewrite length_map, length_seq.
Qed.

(** The series prepared for a store and department lies on the weekly grid
    between the first and the last day observed for them. *)
Lemma prepare_data_grid (df : DataFrame) (store dept : Z) (ts : Series) :
  snd (prepare_data df store dept) = Return ts ->
  observed_days df store dept <> [] ->
  exists lo hi,
    In lo (observed_days df store dept) /\
    In hi (observed_days df store dept) /\
    (forall d, In d (observed_days df store dept) -> (lo <= d <= hi)%Z) /\
    index ts = date_range_W_FRI lo hi.
Proof.
  unfold prepare_data. cbn [snd]. intros Hts Hobs.
  fold (matches store dept) in Hts.
  apply asfreq_index in Hts. destruct Hts as [[Hnil _] | (d0 & Hd0 & Hidx)].
  - exfalso. destruct (observed_days df store dept) as [ | d l] eqn:E; [now apply Hobs | ].
    assert (Hd : In d (observed_days df store dept)) by (rewrite E; now left).
    apply prepared_days_In in Hd. fold (matches store dept) in Hd.
    rewrite Hnil in Hd. exact Hd.
  - destruct (index_min_spec _ d0 Hd0) as [Hlo Hlo_le].
    destruct (index_max_spec _ d0 Hd0) as [Hhi Hhi_le].
    eexists _, _. split; [ | split; [ | split; [ | exact Hidx]]].
    + now apply prepared_days_In.
    + now apply prepared_days_In.
    + intros d Hd. apply prepared_days_In in Hd. split; auto.
Qed.

(** Without a matching record the series is empty. *)
Lemma prepare_data_no_match (df : DataFrame) (store dept : Z) :
  (forall r, In r df -> ~ (Store r = store /\ Dept r = dept)) ->
  snd (prepare_data df store dept) = Return [].
Proof.
  intros Hnone. unfold prepare_data. cbn [snd]. fold (matches store dept).
  assert (Hempty : filter (matches store dept)
            (sort_values (map (fun r => set_Date r (to_datetime (Date r))) df)) = []).
  { destruct (filter _ _) as [ | r' l] eqn:E; [reflexivity | exfalso].
    assert (Hin : In r' (r' :: l)) by now left.
    rewrite <- E in Hin. apply prepared_row_In in Hin.
    destruct Hin as (r & Hin & Hm & _). apply (Hnone r Hin).
    unfold matches in Hm. apply andb_true_iff in Hm. destruct Hm as [H1 H2].
    split; now apply Z.eqb_eq. }
  now rewrite Hempty.
Qed.

End PrepareFacts.
Import PrepareFacts.

(* ================================================================== *)
(** * The /predict handler *)
(* ================================================================== *)

Module HandlerFacts.

(** A fit that fails with an exception that is not a [ValueError]. *)
Definition failing_fit : fitter :=
  fun _ => Raise (OtherException "FloatingPointError" "overflow encountered").

Definition sample_request : Request :=
  {| store_id := 1; dept_id := 1; forecast_periods := 12; lead_time_days := 7;
     req_service_level := 95 / 100 |}.

Lemma predict_no_data (fit : fitter) (df : DataFrame) (req : Request) :
  snd (prepare_data df (store_id req) (dept_id req)) = Return [] ->
  predict fit true df req
  = JsonError 404 "No data found"
      ("No data available for Store " ++ str_of_int (store_id req)
       ++ ", Department " ++ str_of_int (dept_id req)).
Proof. intros H. unfold predict. cbn [negb]. now rewrite H. Qed.

Lemma predict_recommendation_raises (fit : fitter) (df : DataFrame) (req : Request)
  (ts : Series) (e : exn) :
  snd (prepare_data df (store_id req) (dept_id req)) = Return ts ->
  ts <> [] ->
  get_recommendations fit (init (req_service_level req)) ts
    (forecast_periods req) (lead_time_days req) = Raise e ->
  predict fit true df req = handle e.
Proof.
  intros Hts Hne Hrec. unfold predict. cbn [negb]. rewrite Hts.
  destruct ts as [ | p ts']; [contradiction | ].
  cbn [len length Nat.eqb]. now rewrite Hrec.
Qed.

Lemma sales_frame_has_no_store_99 :
  forall r, In r sales_frame -> ~ (Store r = 99%Z /\ Dept r = 99%Z).
Proof.
  intros r [<- | [<- | []]] [H _]; discriminate.
Qed.

End HandlerFacts.
Import HandlerFacts.

(** C7 (as the code has it). Whatever exception the fit or the forecast of
    the model raises, of whatever class, [forecast_demand] raises a
    [ValueError] carrying its message, [get_recommendations] raises the same,
    and [predict] answers 400 "Validation error": the failure is not told
    apart from a validation error, and no result is returned. *)
Theorem C7_fit_failures_become_validation_errors :
  forall (fit : fitter) (df : DataFrame) (req : Request) (ts : Series) (e0 : exn),
    snd (prepare_data df (store_id req) (dept_id req)) = Return ts ->
    ts <> [] ->
    (fit ts = Raise e0 \/
     exists model, fit ts = Return model /\
       forecast_steps model (forecast_periods req) = Raise e0) ->
    forecast_demand fit (init (req_service_level req)) ts (forecast_periods req)
    = Raise (ValueError ("Error in forecasting: " ++ str e0)) /\
    get_recommendations fit (init (req_service_level req)) ts
      (forecast_periods req) (lead_time_days req)
    = Raise (ValueError ("Error in forecasting: " ++ str e0)) /\
    predict fit true df req
    = JsonError 400 "Validation error" ("Error in forecasting: " ++ str e0).
Proof.
  intros fit df req ts e0 Hts Hne Hfail.
  assert (Hfc : forecast_demand fit (init (req_service_level req)) ts (forecast_periods req)
                = Raise (ValueError ("Error in forecasting: " ++ str e0))).
  { destruct Hfail as [Hfit | (model & Hfit & Hsteps)].
    - now apply forecast_demand_fit_raises.
    - now apply (forecast_demand_steps_raise _ _ _ _ model). }
  pose proof (get_recommendations_raise _ _ _ _ (lead_time_days req) _ Hfc) as Hrec.
  split; [exact Hfc | ]. split; [exact Hrec | ].
  now rewrite (predict_recommendation_raises _ _ _ _ _ Hts Hne Hrec).
Qed.

Module C7Sample.

Lemma prepared : snd (prepare_data sales_frame (store_id sample_request)
                        (dept_id sample_request)) = Return two_weeks.
Proof. reflexivity. Qed.

Lemma two_weeks_not_empty : two_weeks <> [].
Proof. discriminate. Qed.

Lemma fit_fails :
  failing_fit two_weeks
  = Raise (OtherException "FloatingPointError" "overflow encountered") \/
  exists model, failing_fit two_weeks = Return model /\
    forecast_steps model (forecast_periods sample_request)
    = Raise (OtherException "FloatingPointError" "overflow encountered").
Proof. left. reflexivity. Qed.

End C7Sample.

Lemma C7_witness :
  forecast_demand failing_fit (init (req_service_level sample_request)) two_weeks
    (forecast_periods sample_request)
  = Raise (ValueError ("Error in forecasting: "
                       ++ str (OtherException "FloatingPointError" "overflow encountered"))) /\
  get_recommendations failing_fit (init (req_service_level sample_request)) two_weeks
    (forecast_periods sample_request) (lead_time_days sample_request)
  = Raise (ValueError ("Error in forecasting: "
                       ++ str (OtherException "FloatingPointError" "overflow encountered"))) /\
  predict failing_fit true sales_frame sample_request
  = JsonError 400 "Validation error"
      ("Error in forecasting: "
       ++ str (OtherException "FloatingPointError" "overflow encountered")).
Proof.
  exact (C7_fit_failures_become_validation_errors failing_fit sales_frame sample_request
           two_weeks (OtherException "FloatingPointError" "overflow encountered")
           C7Sample.prepared C7Sample.two_weeks_not_empty C7Sample.fit_fails).
Defined.

(** C7 as stated fails: a floating-point failure inside the fit, which the
    handler would answer with 500 "Internal server error", reaches it as a
    [ValueError] and is answered with 400 "Validation error". *)
Lemma C7_counterexample_internal_failure_reclassified :
  failing_fit two_weeks
  = Raise (OtherException "FloatingPointError" "overflow encountered") /\
  handle (OtherException "FloatingPointError" "overflow encountered")
  = JsonError 500 "Internal server error" "overflow encountered" /\
  forecast_demand failing_fit (init (95 / 100)) two_weeks 12
  = Raise (ValueError "Error in forecasting: overflow encountered") /\
  predict failing_fit true sales_frame sample_request
  = JsonError 400 "Validation error" "Error in forecasting: overflow encountered".
Proof. repeat split. Qed.

(** C8. When no record matches the store and department, [prepare_data]
    returns the empty series and raises nothing, and [predict] answers 404
    "No data found" whatever the fit is: neither forecast nor policy is
    computed. *)
Theorem C8_no_match_gives_empty_series :
  forall (df : DataFrame) (store dept : Z),
    (forall r, In r df -> ~ (Store r = store /\ Dept r = dept)) ->
    snd (prepare_data df store dept) = Return [] /\
    ~ raises (snd (prepare_data df store dept)) /\
    forall (fit : fitter) (req : Request),
      store_id req = store -> dept_id req = dept ->
      predict fit true df req
      = JsonError 404 "No data found"
          ("No data available for Store " ++ str_of_int store
           ++ ", Department " ++ str_of_int dept).
Proof.
  intros df store dept Hnone.
  pose proof (prepare_data_no_match df store dept Hnone) as Hempty.
  split; [exact Hempty | ]. split.
  - intros [e He]. rewrite Hempty in He. discriminate.
  - intros fit req <- <-. now apply predict_no_data.
Qed.

Lemma C8_witness :
  snd (prepare_data sales_frame 99 99) = Return [] /\
  ~ raises (snd (prepare_data sales_frame 99 99)) /\
  forall (fit : fitter) (req : Request),
    store_id req = 99%Z -> dept_id req = 99%Z ->
    predict fit true sales_frame req
    = JsonError 404 "No data found"
        ("No data available for Store " ++ str_of_int 99
         ++ ", Department " ++ str_of_int 99).
Proof.
  exact (C8_no_match_gives_empty_series sales_frame 99 99 sales_frame_has_no_store_99).
Defined.

(** C9 (as the code has it). [prepare_data] keeps the rows of the caller's
    frame in place and leaves [Store], [Dept] and [Weekly_Sales] of each as
    they were; the [Date] of each row is replaced by the timestamp of the
    same day, so that a frame whose dates are timestamps already is left as
    it was. *)
Theorem C9_prepare_data_rewrites_date_column :
  forall (df : DataFrame) (store dept : Z),
    length (fst (prepare_data df store dept)) = length df /\
    (forall (i : nat) (r : SalesRecord),
       nth_error df i = Some r ->
       exists r', nth_error (fst (prepare_data df store dept)) i = Some r' /\
         Store r' = Store r /\ Dept r' = Dept r /\
         Weekly_Sales r' = Weekly_Sales r /\
         Date r' = Timestamp (day_of (Date r))) /\
    ((forall r, In r df -> exists d, Date r = Timestamp d) ->
     fst (prepare_data df store dept) = df).
Proof.
  intros df store dept. unfold prepare_data. cbn [fst]. split; [ | split].
  - apply length_map.
  - intros i r Hi. eexists. split.
    + rewrite nth_error_map, Hi. reflexivity.
    + repeat split.
  - intros Hts. rewrite <- (map_id df) at 2. apply map_ext_in.
    intros r Hin. destruct (Hts r Hin) as [d Hd].
    destruct r as [st dp dt ws]. cbn in Hd. subst dt. reflexivity.
Qed.

(** C9 as stated fails: after the call the [Date] of the first record of
    the caller's frame is a timestamp, no longer the text that was loaded. *)
Lemma C9_counterexample_date_column_changed :
  fst (prepare_data sales_frame 1 1) <> sales_frame /\
  option_map Date (nth_error sales_frame 0) = Some (DateStr 1%Z) /\
  option_map Date (nth_error (fst (prepare_data sales_frame 1 1)) 0)
  = Some (Timestamp 1%Z).
Proof.
  split; [ | split; reflexivity].
  rewrite prepare_sales_frame. cbn [fst]. unfold sales_frame. intros H.
  discriminate H.
Qed.

(* ================================================================== *)
(** * The summary block *)
(* ================================================================== *)

Module SummaryFacts.

Lemma dropna_idem (xs : list float64) : dropna (dropna xs) = dropna xs.
Proof.
  unfold dropna. induction xs as [ | x xs IH]; simpl; [reflexivity | ].
  destruct (notna x) eqn:E; simpl; [rewrite E, IH | ]; auto.
Qed.

Lemma nanmean_dropna (xs : list float64) : nanmean (dropna xs) = nanmean xs.
Proof. unfold nanmean. now rewrite dropna_idem. Qed.

Lemma nanstd_dropna (ddof : nat) (xs : list float64) :
  nanstd ddof (dropna xs) = nanstd ddof xs.
Proof. unfold nanstd, nanvar. now rewrite dropna_idem. Qed.

Lemma dropna_length_le (xs : list float64) : (length (dropna xs) <= length xs)%nat.
Proof.
  unfold dropna. induction xs as [ | x xs IH]; simpl; [lia | ].
  destruct (notna x); simpl; lia.
Qed.

Lemma dropna_length_lt (xs : list float64) :
  In NaN xs -> (length (dropna xs) < length xs)%nat.
Proof.
  induction xs as [ | x xs IH]; simpl; [tauto | ].
  intros [-> | Hin].
  - cbn. pose proof (dropna_length_le xs). unfold dropna in *. lia.
  - specialize (IH Hin). unfold dropna in *. destruct (notna x); simpl; lia.
Qed.

End SummaryFacts.
Import SummaryFacts.

(** C10. In the summary of a Recommendation for a series made by
    [prepare_data], [data_points] is the length of the series, which is the
    length of the weekly grid between the first and the last day observed
    for the store and department, missing weeks included; the mean, the
    standard deviation and the coefficient of variation are those of the
    present values alone; so when a week is missing, [data_points] exceeds
    the number of values that enter the mean and the standard deviation. *)
Theorem C10_data_points_count_missing_weeks :
  forall (fit : fitter) (df : DataFrame) (store dept : Z) (ts : Series)
         (self : InventoryOptimizer) (n L : Z) (rec : Recommendation),
    snd (prepare_data df store dept) = Return ts ->
    get_recommendations fit self ts n L = Return rec ->
    data_points (rec_summary rec) = length ts /\
    (observed_days df store dept <> [] ->
     exists lo hi,
       In lo (observed_days df store dept) /\
       In hi (observed_days df store dept) /\
       (forall d, In d (observed_days df store dept) -> (lo <= d <= hi)%Z) /\
       data_points (rec_summary rec) = length (date_range_W_FRI lo hi) /\
       ((lo mod 7 = 1)%Z ->
        data_points (rec_summary rec) = (Z.to_nat ((hi - lo) / 7) + 1)%nat)) /\
    avg_weekly_sales (rec_summary rec) = nanmean (dropna (values ts)) /\
    (forall x v, dropna (values ts) = x :: v ->
       avg_weekly_sales (rec_summary rec)
       = fdiv (fsum (x :: v)) (of_nat (length (x :: v)))) /\
    std_weekly_sales (rec_summary rec) = nanstd 1 (dropna (values ts)) /\
    coefficient_of_variation (rec_summary rec)
    = fmul (fdiv (nanstd 1 (dropna (values ts))) (nanmean (dropna (values ts))))
           (Fin 100) /\
    (In NaN (values ts) ->
     (length (dropna (values ts)) < data_points (rec_summary rec))%nat).
Proof.
  intros fit df store dept ts self n L rec Hprep Hrec.
  apply get_recommendations_inv in Hrec. destruct Hrec as (_ & _ & _ & Hsum).
  rewrite Hsum. unfold summary_of.
  cbn [data_points avg_weekly_sales std_weekly_sales coefficient_of_variation].
  rewrite nanmean_dropna, nanstd_dropna. unfold len, mean, std.
  repeat split.
  - intros Hobs.
    destruct (prepare_data_grid df store dept ts Hprep Hobs)
      as (lo & hi & Hlo & Hhi & Hbounds & Hidx).
    exists lo, hi. repeat split; try assumption; try (now apply Hbounds).
    + rewrite <- Hidx. unfold index. now rewrite length_map.
    + intros Hfri. rewrite <- (date_range_length lo hi Hfri).
      * rewrite <- Hidx. unfold index. now rewrite length_map.
      * now apply Hbounds.
  - intros x v Hv. rewrite <- nanmean_dropna. unfold nanmean.
    rewrite dropna_idem, Hv. reflexivity.
  - intros Hnan. apply dropna_length_lt in Hnan.
    unfold values in Hnan at 2. now rewrite length_map in Hnan.
Qed.

Lemma C10_witness :
  exists rec,
    get_recommendations flat_fit (init (95 / 100)) gap_weeks 2 7 = Return rec /\
    (data_points (rec_summary rec) = length gap_weeks /\
     (observed_days gap_frame 1 1 <> [] ->
      exists lo hi,
        In lo (observed_days gap_frame 1 1) /\
        In hi (observed_days gap_frame 1 1) /\
        (forall d, In d (observed_days gap_frame 1 1) -> (lo <= d <= hi)%Z) /\
        data_points (rec_summary rec) = length (date_range_W_FRI lo hi) /\
        ((lo mod 7 = 1)%Z ->
         data_points (rec_summary rec) = (Z.to_nat ((hi - lo) / 7) + 1)%nat)) /\
     avg_weekly_sales (rec_summary rec) = nanmean (dropna (values gap_weeks)) /\
     (forall x v, dropna (values gap_weeks) = x :: v ->
        avg_weekly_sales (rec_summary rec)
        = fdiv (fsum (x :: v)) (of_nat (length (x :: v)))) /\
     std_weekly_sales (rec_summary rec) = nanstd 1 (dropna (values gap_weeks)) /\
     coefficient_of_variation (rec_summary rec)
     = fmul (fdiv (nanstd 1 (dropna (values gap_weeks)))
                  (nanmean (dropna (values gap_weeks))))
            (Fin 100) /\
     (In NaN (values gap_weeks) ->
      (length (dropna (values gap_weeks)) < data_points (rec_summary rec))%nat)).
Proof.
  destruct (flat_fit_recommends (init (95 / 100)) gap_weeks 2 7 seven_fits)
    as [rec Hrec].
  exists rec. split; [exact Hrec | ].
  exact (C10_data_points_count_missing_weeks flat_fit gap_frame 1 1 gap_weeks
           (init (95 / 100)) 2 7 rec prepare_gap_frame Hrec).
Defined.

(* ================================================================== *)
(** * More on series preparation *)
(* ================================================================== *)

From Stdlib Require Import Permutation Sorted.

Module GridFacts.

Lemma roll_forward_friday_spec (lo : day) :
  (roll_forward_friday lo mod 7 = 1)%Z /\
  (lo <= roll_forward_friday lo < lo + 7)%Z.
Proof.
  unfold roll_forward_friday. split.
  - rewrite Zplus_mod_idemp_r. replace (lo + (1 - lo))%Z with 1%Z by ring. reflexivity.
  - pose proof (Z.mod_pos_bound (1 - lo) 7). lia.
Qed.

Lemma first_friday_least (lo a b : day) :
  (a mod 7 = 1)%Z -> (b mod 7 = 1)%Z -> (lo <= a < lo + 7)%Z -> (lo <= b)%Z ->
  (a <= b)%Z.
Proof.
  intros Ha Hb Hnear Hlo.
  pose proof (Z.div_mod a 7 ltac:(lia)). pose proof (Z.div_mod b 7 ltac:(lia)). lia.
Qed.

(** The grid between [lo] and [hi] is made of the Fridays in between. *)
Lemma date_range_In (lo hi d : day) :
  In d (date_range_W_FRI lo hi) <-> (lo <= d <= hi)%Z /\ (d mod 7 = 1)%Z.
Proof.
  unfold date_range_W_FRI.
  destruct (roll_forward_friday_spec lo) as [Hfri Hnear].
  set (first := roll_forward_friday lo) in *.
  destruct (Z.ltb_spec hi first) as [Hlt | Hge].
  - split; [intros [] | ]. intros [Hd Hm]. exfalso.
    pose proof (first_friday_least lo first d Hfri Hm Hnear ltac:(lia)). lia.
  - rewrite in_map_iff. split.
    + intros (k & <- & Hk). apply in_seq in Hk.
      assert (Hq : (0 <= (hi - first) / 7)%Z) by (apply Z.div_pos; lia).
      assert (Hk' : (Z.of_nat k <= (hi - first) / 7)%Z) by lia.
      split; [ | rewrite (Z.mul_comm 7), Z_mod_plus_full; exact Hfri].
      pose proof (Z.mul_div_le (hi - first) 7). lia.
    + intros [Hd Hm].
      pose proof (first_friday_least lo first d Hfri Hm Hnear ltac:(lia)) as Hfd.
      exists (Z.to_nat ((d - first) / 7)). split.
      * rewrite Z2Nat.id by (apply Z.div_pos; lia).
        assert (Hdiv : ((d - first) mod 7 = 0)%Z)
          by (rewrite Zminus_mod, Hm, Hfri; reflexivity).
        pose proof (Z.div_mod (d - first) 7 ltac:(lia)). lia.
      * apply in_seq. split; [lia | ].
        assert ((d - first) / 7 <= (hi - first) / 7)%Z by (apply Z.div_le_mono; lia).
        assert (0 <= (d - first) / 7)%Z by (apply Z.div_pos; lia). lia.
Qed.

Lemma date_range_nth (lo hi : day) (i : nat) (d d' : day) :
  nth_error (date_range_W_FRI lo hi) i = Some d ->
  nth_error (date_range_W_FRI lo hi) (S i) = Some d' ->
  d' = (d + 7)%Z.
Proof.
  unfold date_range_W_FRI. destruct (hi <? roll_forward_friday lo)%Z.
  - destruct i; discriminate.
  - rewrite !nth_error_map. intros H1 H2.
    destruct (nth_error (seq 0 _) i) as [k | ] eqn:E1; [ | discriminate].
    destruct (nth_error (seq 0 _) (S i)) as [k' | ] eqn:E2; [ | discriminate].
    pose proof (nth_error_nth _ _ 0%nat E1) as N1.
    pose proof (nth_error_nth _ _ 0%nat E2) as N2.
    assert (Hlen : (S i < length (seq 0 (Z.to_nat ((hi - roll_forward_friday lo) / 7) + 1)))%nat).
    { apply nth_error_Some. rewrite E2. discriminate. }
    rewrite length_seq in Hlen.
    rewrite seq_nth in N1 by lia. rewrite seq_nth in N2 by lia.
    cbv beta iota delta [option_map] in H1, H2.
    injection H1 as <-. injection H2 as <-.
    change (roll_forward_friday lo + 7 * Z.of_nat k'
            = roll_forward_friday lo + 7 * Z.of_nat k + 7)%Z.
    lia.
Qed.

Lemma existsb_eqb_In (d : day) (l : list day) :
  existsb (Z.eqb d) l = true <-> In d l.
Proof.
  rewrite existsb_exists. split.
  - intros (x & Hin & Heq). apply Z.eqb_eq in Heq. now subst.
  - intros Hin. exists d. split; [exact Hin | apply Z.eqb_refl].
Qed.

Lemma has_duplicates_NoDup (l : list day) :
  has_duplicates l = false <-> NoDup l.
Proof.
  induction l as [ | d l IH]; simpl.
  - split; [constructor | reflexivity].
  - rewrite orb_false_iff, IH. split.
    + intros [Hex Hnd]. constructor; [ | exact Hnd].
      intros Hin. apply existsb_eqb_In in Hin. congruence.
    + intros Hnd. inversion Hnd as [ | ? ? Hnotin Hnd']; subst. split; [ | exact Hnd'].
      destruct (existsb (Z.eqb d) l) eqn:E; [ | reflexivity].
      apply existsb_eqb_In in E. contradiction.
Qed.

Lemma lookup_In (s : Series) (d : day) (v : float64) :
  NoDup (index s) -> In (d, v) s -> lookup d s = v.
Proof.
  induction s as [ | [d' v'] s IH]; simpl; [tauto | ].
  intros Hnd Hin. inversion Hnd as [ | ? ? Hnotin Hnd']; subst.
  destruct Hin as [[= -> ->] | Hin].
  - now rewrite Z.eqb_refl.
  - destruct (Z.eqb_spec d d') as [-> | _]; [ | now apply IH].
    exfalso. apply Hnotin. unfold index. apply in_map_iff. now exists (d', v).
Qed.

Lemma lookup_not_In (s : Series) (d : day) :
  ~ In d (index s) -> lookup d s = NaN.
Proof.
  induction s as [ | [d' v'] s IH]; simpl; [reflexivity | ].
  intros Hnotin. destruct (Z.eqb_spec d d') as [-> | _]; [tauto | ].
  apply IH. tauto.
Qed.

Lemma lookup_cases (s : Series) (d : day) :
  lookup d s = NaN \/ In (d, lookup d s) s.
Proof.
  induction s as [ | [d' v'] s IH]; simpl; [now left | ].
  destruct (Z.eqb_spec d d') as [-> | _]; [right; now left | ].
  destruct IH as [IH | IH]; [now left | right; now right].
Qed.

(** What [asfreq] returns for a series that is not empty. *)
Lemma asfreq_return (s ts : Series) :
  s <> [] ->
  asfreq_W_FRI s = Return ts ->
  NoDup (index s) /\
  exists lo hi,
    In lo (index s) /\ In hi (index s) /\
    (forall d, In d (index s) -> (lo <= d <= hi)%Z) /\
    ts = map (fun g => (g, lookup g s)) (date_range_W_FRI lo hi).
Proof.
  unfold asfreq_W_FRI. destruct s as [ | [d0 v0] s']; [contradiction | ].
  intros _. destruct (has_duplicates _) eqn:Hdup; [discriminate | ].
  intros [= <-]. split; [now apply has_duplicates_NoDup | ].
  assert (Hd0 : In d0 (index ((d0, v0) :: s'))) by now left.
  destruct (index_min_spec _ d0 Hd0) as [Hlo Hlo_le].
  destruct (index_max_spec _ d0 Hd0) as [Hhi Hhi_le].
  eexists _, _. split; [exact Hlo | ]. split; [exact Hhi | ].
  split; [ | reflexivity]. intros d Hd. split; auto.
Qed.

Lemma asfreq_raises_iff (s : Series) :
  raises (asfreq_W_FRI s) <-> ~ NoDup (index s).
Proof.
  unfold asfreq_W_FRI, raises. destruct s as [ | [d0 v0] s'].
  - split; [intros [e He]; discriminate | intros H; exfalso; apply H; constructor].
  - destruct (has_duplicates _) eqn:Hdup.
    + split; [ | intros _; now eexists].
      intros _ Hnd. apply has_duplicates_NoDup in Hnd. congruence.
    + split; [intros [e He]; discriminate | ].
      intros H. exfalso. apply H. now apply has_duplicates_NoDup.
Qed.

Lemma asfreq_raises_ValueError (s : Series) (e : exn) :
  asfreq_W_FRI s = Raise e -> exists msg, e = ValueError msg.
Proof.
  unfold asfreq_W_FRI. destruct s as [ | [d0 v0] s']; [discriminate | ].
  destruct (has_duplicates _); [ | discriminate]. intros [= <-]. now eexists.
Qed.

End GridFacts.
Import GridFacts.

Module PrepareMore.

(** The frame with its [Date] column converted. *)
Definition as_timestamps (df : DataFrame) : DataFrame :=
  map (fun r => set_Date r (to_datetime (Date r))) df.

(** The sales of a store and department by day, before re-indexing. *)
Definition sales_of (df : DataFrame) (store dept : Z) : Series :=
  map (fun r => (day_of (Date r), Weekly_Sales r))
      (filter (matches store dept) (sort_values (as_timestamps df))).

Lemma prepare_data_eq (df : DataFrame) (store dept : Z) :
  prepare_data df store dept
  = (as_timestamps df, asfreq_W_FRI (sales_of df store dept)).
Proof. reflexivity. Qed.

Lemma sales_of_In (df : DataFrame) (store dept : Z) (d : day) (v : float64) :
  In (d, v) (sales_of df store dept) <->
  exists r, In r df /\ matches store dept r = true /\
    day_of (Date r) = d /\ Weekly_Sales r = v.
Proof.
  unfold sales_of, as_timestamps. rewrite in_map_iff. split.
  - intros (r' & [= <- <-] & Hin). apply prepared_row_In in Hin.
    destruct Hin as (r & Hin & Hm & ->). exists r. repeat split; assumption.
  - intros (r & Hin & Hm & <- & <-).
    exists (set_Date r (to_datetime (Date r))). split; [reflexivity | ].
    apply prepared_row_In. now exists r.
Qed.

Lemma matches_spec (store dept : Z) (r : SalesRecord) :
  matches store dept r = true <-> Store r = store /\ Dept r = dept.
Proof. unfold matches. rewrite andb_true_iff, !Z.eqb_eq. tauto. Qed.

Lemma insert_sorted_perm (r : SalesRecord) (l : DataFrame) :
  Permutation (insert_sorted r l) (r :: l).
Proof.
  induction l as [ | x l IH]; simpl; [reflexivity | ].
  destruct (key_leb r x); [reflexivity | ].
  rewrite IH. apply perm_swap.
Qed.

Lemma sort_values_perm (df : DataFrame) : Permutation (sort_values df) df.
Proof.
  unfold sort_values. induction df as [ | r df IH]; simpl; [reflexivity | ].
  rewrite insert_sorted_perm. now constructor.
Qed.

Lemma filter_perm {A : Type} (f : A -> bool) (l l' : list A) :
  Permutation l l' -> Permutation (filter f l) (filter f l').
Proof.
  induction 1 as [ | x l l' _ IH | x y l | l l' l'' _ IH1 _ IH2]; simpl.
  - reflexivity.
  - destruct (f x); [now constructor | exact IH].
  - destruct (f x), (f y); try reflexivity. apply perm_swap.
  - now transitivity (filter f l').
Qed.

Lemma sales_of_perm (df df' : DataFrame) (store dept : Z) :
  Permutation df df' ->
  Permutation (sales_of df store dept) (sales_of df' store dept).
Proof.
  intros H. unfold sales_of, as_timestamps.
  apply Permutation_map, filter_perm.
  rewrite !sort_values_perm. now apply Permutation_map.
Qed.

Lemma filter_as_timestamps (df : DataFrame) (store dept : Z) :
  filter (matches store dept) (as_timestamps df)
  = as_timestamps (filter (matches store dept) df).
Proof.
  unfold as_timestamps. induction df as [ | r df IH]; simpl; [reflexivity | ].
  change (matches store dept (set_Date r (to_datetime (Date r))))
    with (matches store dept r).
  destruct (matches store dept r); simpl; now rewrite IH.
Qed.

Lemma index_sales_of_perm (df : DataFrame) (store dept : Z) :
  Permutation (index (sales_of df store dept)) (observed_days df store dept).
Proof.
  unfold index, sales_of, observed_days. rewrite map_map. cbn [fst].
  rewrite (filter_perm _ _ _ (sort_values_perm (as_timestamps df))).
  rewrite filter_as_timestamps. unfold as_timestamps. rewrite map_map.
  reflexivity.
Qed.

(** Re-indexing does not depend on the order of the rows. *)
Lemma asfreq_perm (s s' : Series) :
  Permutation s s' -> asfreq_W_FRI s = asfreq_W_FRI s'.
Proof.
  intros Hp.
  assert (Hidx : Permutation (index s) (index s')) by now apply Permutation_map.
  destruct s as [ | [d0 v0] s0].
  { apply Permutation_nil in Hp. now subst. }
  destruct s' as [ | [d0' v0'] s0'].
  { symmetry in Hp. apply Permutation_nil in Hp. discriminate. }
  unfold asfreq_W_FRI.
  destruct (has_duplicates (index ((d0, v0) :: s0))) eqn:D;
    destruct (has_duplicates (index ((d0', v0') :: s0'))) eqn:D'.
  - reflexivity.
  - exfalso. apply has_duplicates_NoDup in D'.
    symmetry in Hidx. apply (Permutation_NoDup Hidx), has_duplicates_NoDup in D'.
    congruence.
  - exfalso. apply has_duplicates_NoDup in D.
    apply (Permutation_NoDup Hidx), has_duplicates_NoDup in D. congruence.
  - apply has_duplicates_NoDup in D. apply has_duplicates_NoDup in D'.
    set (s := (d0, v0) :: s0) in *. set (s' := (d0', v0') :: s0') in *.
    assert (H0 : In d0 (index s)) by now left.
    assert (H0' : In d0' (index s')) by now left.
    destruct (index_min_spec _ d0 H0) as [Hlo Hlo_le].
    destruct (index_max_spec _ d0 H0) as [Hhi Hhi_le].
    destruct (index_min_spec _ d0' H0') as [Hlo' Hlo_le'].
    destruct (index_max_spec _ d0' H0') as [Hhi' Hhi_le'].
    assert (Hmin : index_min d0 (index s) = index_min d0' (index s')).
    { apply Z.le_antisymm.
      - apply Hlo_le. apply (Permutation_in _ (Permutation_sym Hidx)), Hlo'.
      - apply Hlo_le'. apply (Permutation_in _ Hidx), Hlo. }
    assert (Hmax : index_max d0 (index s) = index_max d0' (index s')).
    { apply Z.le_antisymm.
      - apply Hhi_le'. apply (Permutation_in _ Hidx), Hhi.
      - apply Hhi_le. apply (Permutation_in _ (Permutation_sym Hidx)), Hhi'. }
    rewrite Hmin, Hmax. f_equal. apply map_ext. intros g. f_equal.
    destruct (in_dec Z.eq_dec g (index s)) as [Hin | Hnotin].
    + unfold index in Hin. apply in_map_iff in Hin.
      destruct Hin as ([g' v] & Hg & Hin). cbn in Hg. subst g'.
      rewrite (lookup_In s g v D Hin).
      symmetry. apply (lookup_In s' g v D'). now apply (Permutation_in _ Hp).
    + rewrite (lookup_not_In s g Hnotin). symmetry. apply lookup_not_In.
      intros Hin. apply Hnotin. now apply (Permutation_in _ (Permutation_sym Hidx)).
Qed.

End PrepareMore.
Import PrepareMore.

(** X1. The series [prepare_data] returns lies on a weekly grid: every
    label is a Friday and each label is seven days after the one before. *)
Theorem X1_prepared_series_is_weekly :
  forall (df : DataFrame) (store dept : Z) (ts : Series),
    snd (prepare_data df store dept) = Return ts ->
    (forall d, In d (index ts) -> (d mod 7 = 1)%Z) /\
    (forall (i : nat) (d d' : day),
       nth_error (index ts) i = Some d ->
       nth_error (index ts) (S i) = Some d' ->
       d' = (d + 7)%Z).
Proof.
  intros df store dept ts Hts. rewrite prepare_data_eq in Hts. cbn [snd] in Hts.
  apply asfreq_index in Hts. destruct Hts as [[_ ->] | (d0 & _ & Hidx)].
  - split; [intros d [] | intros [ | i] d d'; discriminate].
  - rewrite Hidx. split.
    + intros d Hd. now apply date_range_In in Hd.
    + intros i d d'. apply date_range_nth.
Qed.

Lemma X1_witness :
  (forall d, In d (index gap_weeks) -> (d mod 7 = 1)%Z) /\
  (forall (i : nat) (d d' : day),
     nth_error (index gap_weeks) i = Some d ->
     nth_error (index gap_weeks) (S i) = Some d' ->
     d' = (d + 7)%Z).
Proof.
  exact (X1_prepared_series_is_weekly gap_frame 1 1 gap_weeks prepare_gap_frame).
Defined.

(** X2. In the series [prepare_data] returns, every record of the store and
    department that is dated on a Friday is found at its date with its sales
    value; and every value of the series is either missing or the sales value
    of a record of the store and department at that date. *)
Theorem X2_prepared_series_holds_the_sales :
  forall (df : DataFrame) (store dept : Z) (ts : Series),
    snd (prepare_data df store dept) = Return ts ->
    (forall r, In r df -> Store r = store -> Dept r = dept ->
       (day_of (Date r) mod 7 = 1)%Z ->
       In (day_of (Date r), Weekly_Sales r) ts) /\
    (forall d v, In (d, v) ts ->
       v = NaN \/
       exists r, In r df /\ Store r = store /\ Dept r = dept /\
         day_of (Date r) = d /\ Weekly_Sales r = v).
Proof.
  intros df store dept ts Hts. rewrite prepare_data_eq in Hts. cbn [snd] in Hts.
  destruct (sales_of df store dept) as [ | p s0] eqn:Es.
  - injection Hts as <-. split; [ | intros d v []].
    intros r Hin Hs Hd _. exfalso.
    assert (H : In (day_of (Date r), Weekly_Sales r) (sales_of df store dept)).
    { apply sales_of_In. exists r. repeat split; try assumption.
      now apply matches_spec. }
    rewrite Es in H. exact H.
  - rewrite <- Es in Hts.
    assert (Hne : sales_of df store dept <> []) by (rewrite Es; discriminate).
    destruct (asfreq_return _ _ Hne Hts) as (Hnd & lo & hi & Hlo & Hhi & Hb & ->).
    clear Es Hne. split.
    + intros r Hin Hs Hd Hfri.
      assert (H : In (day_of (Date r), Weekly_Sales r) (sales_of df store dept)).
      { apply sales_of_In. exists r. repeat split; try assumption.
        now apply matches_spec. }
      apply in_map_iff. exists (day_of (Date r)). split.
      * f_equal. now apply lookup_In.
      * apply date_range_In. split; [ | exact Hfri].
        apply Hb. unfold index. apply in_map_iff.
        now exists (day_of (Date r), Weekly_Sales r).
    + intros d v Hin. apply in_map_iff in Hin. destruct Hin as (g & [= <- <-] & _).
      destruct (lookup_cases (sales_of df store dept) g) as [-> | Hl]; [now left | ].
      right. apply sales_of_In in Hl. destruct Hl as (r & Hin & Hm & Hd & Hv).
      apply matches_spec in Hm. destruct Hm. now exists r.
Qed.

Lemma X2_witness :
  (forall r, In r gap_frame -> Store r = 1%Z -> Dept r = 1%Z ->
     (day_of (Date r) mod 7 = 1)%Z ->
     In (day_of (Date r), Weekly_Sales r) gap_weeks) /\
  (forall d v, In (d, v) gap_weeks ->
     v = NaN \/
     exists r, In r gap_frame /\ Store r = 1%Z /\ Dept r = 1%Z /\
       day_of (Date r) = d /\ Weekly_Sales r = v).
Proof.
  exact (X2_prepared_series_holds_the_sales gap_frame 1 1 gap_weeks prepare_gap_frame).
Defined.

Module RaiseFacts.

Lemma prepare_data_raises_iff (df : DataFrame) (store dept : Z) :
  raises (snd (prepare_data df store dept)) <->
  ~ NoDup (observed_days df store dept).
Proof.
  rewrite prepare_data_eq. cbn [snd].
  rewrite asfreq_raises_iff. split; intros H Hnd; apply H.
  - now apply (Permutation_NoDup (Permutation_sym (index_sales_of_perm df store dept))).
  - now apply (Permutation_NoDup (index_sales_of_perm df store dept)).
Qed.

Lemma prepare_data_raises_ValueError (df : DataFrame) (store dept : Z) (e : exn) :
  snd (prepare_data df store dept) = Raise e -> exists msg, e = ValueError msg.
Proof. rewrite prepare_data_eq. cbn [snd]. apply asfreq_raises_ValueError. Qed.

End RaiseFacts.
Import RaiseFacts.

(** X3. [prepare_data] raises exactly when two records of the store and
    department carry the same date, and what it raises is a [ValueError]. *)
Theorem X3_prepare_data_raises_on_duplicate_dates :
  forall (df : DataFrame) (store dept : Z),
    (raises (snd (prepare_data df store dept)) <->
     ~ NoDup (observed_days df store dept)) /\
    (forall e, snd (prepare_data df store dept) = Raise e ->
       exists msg, e = ValueError msg).
Proof.
  intros df store dept. split.
  - apply prepare_data_raises_iff.
  - apply prepare_data_raises_ValueError.
Qed.

Module DuplicateSample.

(** Two records of store 1, department 1 for the same Friday. *)
Definition repeated_frame : DataFrame :=
  [ {| Store := 1; Dept := 1; Date := DateStr 1%Z; Weekly_Sales := Fin 0 |};
    {| Store := 1; Dept := 1; Date := DateStr 1%Z; Weekly_Sales := Fin 14 |} ].

Lemma repeated_days :
  ~ NoDup (observed_days repeated_frame (store_id sample_request)
             (dept_id sample_request)).
Proof.
  intros H. inversion H as [ | ? ? Hnotin _]. apply Hnotin. now left.
Qed.

Lemma reversed_rows : Permutation sales_frame (rev sales_frame).
Proof. apply Permutation_rev. Qed.

End DuplicateSample.

(** X4. When two records of the requested store and department carry the
    same date, [predict] answers 400 "Validation error", whatever the fit. *)
Theorem X4_predict_rejects_duplicate_dates :
  forall (fit : fitter) (df : DataFrame) (req : Request),
    ~ NoDup (observed_days df (store_id req) (dept_id req)) ->
    exists msg,
      snd (prepare_data df (store_id req) (dept_id req)) = Raise (ValueError msg) /\
      predict fit true df req = JsonError 400 "Validation error" msg.
Proof.
  intros fit df req Hdup.
  apply prepare_data_raises_iff in Hdup. destruct Hdup as [e He].
  destruct (prepare_data_raises_ValueError _ _ _ _ He) as [msg ->].
  exists msg. split; [exact He | ].
  unfold predict. cbn [negb]. now rewrite He.
Qed.

Lemma X4_witness :
  exists msg,
    snd (prepare_data DuplicateSample.repeated_frame (store_id sample_request)
           (dept_id sample_request)) = Raise (ValueError msg) /\
    predict failing_fit true DuplicateSample.repeated_frame sample_request
    = JsonError 400 "Validation error" msg.
Proof.
  exact (X4_predict_rejects_duplicate_dates failing_fit DuplicateSample.repeated_frame
           sample_request DuplicateSample.repeated_days).
Defined.

(** X5. The series [prepare_data] returns, or the exception it raises, does
    not depend on the order of the rows of the frame. *)
Theorem X5_prepare_data_ignores_row_order :
  forall (df df' : DataFrame) (store dept : Z),
    Permutation df df' ->
    snd (prepare_data df store dept) = snd (prepare_data df' store dept).
Proof.
  intros df df' store dept Hp. rewrite !prepare_data_eq. cbn [snd].
  apply asfreq_perm. now apply sales_of_perm.
Qed.

Lemma X5_witness :
  snd (prepare_data sales_frame 1 1) = snd (prepare_data (rev sales_frame) 1 1).
Proof.
  exact (X5_prepare_data_ignores_row_order sales_frame (rev sales_frame) 1 1
           DuplicateSample.reversed_rows).
Defined.

(** X6. Calling [prepare_data] again on the frame a first call has left
    changes the frame no further, and gives the series that the call on the
    original frame gives. *)
Theorem X6_prepare_data_is_idempotent_on_the_frame :
  forall (df : DataFrame) (store dept store' dept' : Z),
    fst (prepare_data (fst (prepare_data df store dept)) store' dept')
    = fst (prepare_data df store dept) /\
    snd (prepare_data (fst (prepare_data df store dept)) store' dept')
    = snd (prepare_data df store' dept').
Proof.
  intros df store dept store' dept'. rewrite !prepare_data_eq. cbn [fst snd].
  assert (H : as_timestamps (as_timestamps df) = as_timestamps df).
  { unfold as_timestamps. rewrite map_map. apply map_ext. intros r. reflexivity. }
  split; [exact H | ]. unfold sales_of. now rewrite H.
Qed.

(* ================================================================== *)
(** * More on the forecast interval *)
(* ================================================================== *)

Module BandFacts.

(** The Forecast Result in terms of the fitted model, when the spread of
    the residuals is a finite number [s]. *)
Lemma forecast_demand_band (fit : fitter) (self : InventoryOptimizer) (ts : Series)
  (n : Z) (model : HoltWintersResults) (fc : list float64) (s : R) :
  0 < service_level self < 1 ->
  fit ts = Return model ->
  forecast_steps model n = Return fc ->
  np_std (series_sub (values ts) (fittedvalues model)) = Fin s ->
  forecast_demand fit self ts n
  = Return {| forecast := fc;
              lower_bound :=
                map (fun f => fsub f (Fin (probit ((1 + service_level self) / 2) * s))) fc;
              upper_bound :=
                map (fun f => fadd f (Fin (probit ((1 + service_level self) / 2) * s))) fc;
              historical_mean := mean ts;
              historical_std := std ts |}.
Proof.
  intros Hsl Hfit Hsteps Hstd. unfold forecast_demand.
  rewrite Hfit. cbn [bind]. rewrite Hsteps. cbn [bind try_except].
  rewrite Hstd, norm_ppf_interior by lra. reflexivity.
Qed.

Lemma np_std_nonneg (xs : list float64) (s : R) : np_std xs = Fin s -> 0 <= s.
Proof. unfold np_std, nanstd. apply fsqrt_finite_nonneg. Qed.

(** A second stand-in for the fitted model: it fits and forecasts the
    historical mean, so that the residuals are the deviations from it. *)
Definition mean_fit : fitter :=
  fun ts =>
    Return {| fittedvalues := map (fun _ => mean ts) ts;
              forecast_steps :=
                fun steps => Return (repeat (mean ts) (Z.to_nat steps)) |}.

Definition mean_model_two_weeks : HoltWintersResults :=
  {| fittedvalues := map (fun _ => mean two_weeks) two_weeks;
     forecast_steps :=
       fun steps => Return (repeat (mean two_weeks) (Z.to_nat steps)) |}.

Lemma mean_fit_two_weeks : mean_fit two_weeks = Return mean_model_two_weeks.
Proof. reflexivity. Qed.

Lemma mean_fit_two_weeks_steps :
  forecast_steps mean_model_two_weeks 2 = Return [Fin 7; Fin 7].
Proof. cbn [forecast_steps mean_model_two_weeks]. now rewrite mean_two_weeks. Qed.

Lemma mean_fit_two_weeks_spread :
  np_std (series_sub (values two_weeks) (fittedvalues mean_model_two_weeks)) = Fin 7.
Proof.
  cbn [fittedvalues mean_model_two_weeks]. rewrite mean_two_weeks. unfold np_std.
  replace (series_sub (values two_weeks) (map (fun _ => Fin 7) two_weeks))
    with (map Fin [-7; 7]) by (simpl; repeat f_equal; lra).
  rewrite nanstd_Fin by (simpl; lia). f_equal.
  replace (sum_sq _ _ / _) with (7 * 7) by (unfold sum_sq; simpl; lra).
  apply sqrt_square. lra.
Qed.

Lemma service_level_80 : 0 < service_level (init (80 / 100)) < 1.
Proof. cbn [service_level init]. lra. Qed.

Lemma service_levels_80_95 :
  service_level (init (80 / 100)) <= service_level (init (95 / 100)).
Proof. cbn [service_level init]. lra. Qed.

End BandFacts.
Import BandFacts.

(** X7. The interval of [forecast_demand] is symmetric and of the same width
    at every step: with [e] the two-sided z-score times the spread of the
    residuals, [e >= 0], a finite forecast [f] has the bounds [f - e] and
    [f + e], at whatever index of the horizon. *)
Theorem X7_forecast_band_is_symmetric_and_uniform :
  forall (fit : fitter) (self : InventoryOptimizer) (ts : Series) (n : Z)
         (model : HoltWintersResults) (fc : list float64) (s : R),
    0 < service_level self < 1 ->
    fit ts = Return model ->
    forecast_steps model n = Return fc ->
    np_std (series_sub (values ts) (fittedvalues model)) = Fin s ->
    exists fr,
      forecast_demand fit self ts n = Return fr /\
      forecast fr = fc /\
      0 <= probit ((1 + service_level self) / 2) * s /\
      forall (i : nat) (f : R),
        nth_error fc i = Some (Fin f) ->
        nth_error (lower_bound fr) i
        = Some (Fin (f - probit ((1 + service_level self) / 2) * s)) /\
        nth_error (upper_bound fr) i
        = Some (Fin (f + probit ((1 + service_level self) / 2) * s)).
Proof.
  intros fit self ts n model fc s Hsl Hfit Hsteps Hstd.
  eexists. split; [apply (forecast_demand_band _ _ _ _ _ _ _ Hsl Hfit Hsteps Hstd) | ].
  cbn [forecast lower_bound upper_bound]. split; [reflexivity | ]. split.
  - apply Rmult_le_pos; [ | now apply np_std_nonneg in Hstd].
    left. apply probit_pos. lra.
  - intros i f Hi. rewrite !nth_error_map, Hi. split; reflexivity.
Qed.

Lemma X7_witness :
  exists fr,
    forecast_demand mean_fit (init (95 / 100)) two_weeks 2 = Return fr /\
    forecast fr = [Fin 7; Fin 7] /\
    0 <= probit ((1 + service_level (init (95 / 100))) / 2) * 7 /\
    forall (i : nat) (f : R),
      nth_error [Fin 7; Fin 7] i = Some (Fin f) ->
      nth_error (lower_bound fr) i
      = Some (Fin (f - probit ((1 + service_level (init (95 / 100))) / 2) * 7)) /\
      nth_error (upper_bound fr) i
      = Some (Fin (f + probit ((1 + service_level (init (95 / 100))) / 2) * 7)).
Proof.
  exact (X7_forecast_band_is_symmetric_and_uniform mean_fit (init (95 / 100)) two_weeks 2
           mean_model_two_weeks [Fin 7; Fin 7] 7 service_level_95 mean_fit_two_weeks
           mean_fit_two_weeks_steps mean_fit_two_weeks_spread).
Defined.

(** X8. A higher service level widens the interval: for the same series,
    fit and horizon, each lower bound at the higher level is at most the
    lower bound at the lower level, and each upper bound at least the upper
    bound, wherever the forecast is finite. *)
Theorem X8_forecast_band_widens_with_service_level :
  forall (fit : fitter) (self1 self2 : InventoryOptimizer) (ts : Series) (n : Z)
         (model : HoltWintersResults) (fc : list float64) (s : R),
    0 < service_level self1 ->
    service_level self1 <= service_level self2 ->
    service_level self2 < 1 ->
    fit ts = Return model ->
    forecast_steps model n = Return fc ->
    np_std (series_sub (values ts) (fittedvalues model)) = Fin s ->
    exists fr1 fr2,
      forecast_demand fit self1 ts n = Return fr1 /\
      forecast_demand fit self2 ts n = Return fr2 /\
      forecast fr1 = forecast fr2 /\
      forall (i : nat) (f : R),
        nth_error fc i = Some (Fin f) ->
        exists l1 u1 l2 u2 : R,
          nth_error (lower_bound fr1) i = Some (Fin l1) /\
          nth_error (upper_bound fr1) i = Some (Fin u1) /\
          nth_error (lower_bound fr2) i = Some (Fin l2) /\
          nth_error (upper_bound fr2) i = Some (Fin u2) /\
          l2 <= l1 /\ l1 <= f /\ f <= u1 /\ u1 <= u2.
Proof.
  intros fit self1 self2 ts n model fc s H1 H12 H2 Hfit Hsteps Hstd.
  pose proof (np_std_nonneg _ _ Hstd) as Hs.
  assert (Hz1 : 0 < probit ((1 + service_level self1) / 2)) by (apply probit_pos; lra).
  assert (Hz : probit ((1 + service_level self1) / 2)
               <= probit ((1 + service_level self2) / 2)).
  { destruct H12 as [Hlt | ->]; [ | lra]. left. apply probit_increasing; lra. }
  eexists _, _.
  split; [apply (forecast_demand_band _ self1 _ _ _ _ _ ltac:(lra) Hfit Hsteps Hstd) | ].
  split; [apply (forecast_demand_band _ self2 _ _ _ _ _ ltac:(lra) Hfit Hsteps Hstd) | ].
  cbn [forecast lower_bound upper_bound]. split; [reflexivity | ].
  intros i f Hi. rewrite !nth_error_map, Hi. cbn [option_map fsub fadd fneg].
  eexists _, _, _, _. repeat split; nra.
Qed.

Lemma X8_witness :
  exists fr1 fr2,
    forecast_demand mean_fit (init (80 / 100)) two_weeks 2 = Return fr1 /\
    forecast_demand mean_fit (init (95 / 100)) two_weeks 2 = Return fr2 /\
    forecast fr1 = forecast fr2 /\
    forall (i : nat) (f : R),
      nth_error [Fin 7; Fin 7] i = Some (Fin f) ->
      exists l1 u1 l2 u2 : R,
        nth_error (lower_bound fr1) i = Some (Fin l1) /\
        nth_error (upper_bound fr1) i = Some (Fin u1) /\
        nth_error (lower_bound fr2) i = Some (Fin l2) /\
        nth_error (upper_bound fr2) i = Some (Fin u2) /\
        l2 <= l1 /\ l1 <= f /\ f <= u1 /\ u1 <= u2.
Proof.
  exact (X8_forecast_band_widens_with_service_level mean_fit (init (80 / 100))
           (init (95 / 100)) two_weeks 2 mean_model_two_weeks [Fin 7; Fin 7] 7
           (proj1 service_level_80) service_levels_80_95 (proj2 service_level_95)
           mean_fit_two_weeks mean_fit_two_weeks_steps mean_fit_two_weeks_spread).
Defined.

(* ================================================================== *)
(** * More on the inventory policy *)
(* ================================================================== *)

Module PolicyMore.

Lemma fold_Rplus_repeat (c a : R) (n : nat) :
  fold_left Rplus (repeat c n) a = a + INR n * c.
Proof.
  revert a. induction n as [ | n IH]; intros a.
  - simpl. lra.
  - cbn [repeat fold_left]. rewrite IH, S_INR. lra.
Qed.

(** Mean of a series whose present values are [n] times the same number. *)
Lemma mean_constant (ts : Series) (c : R) (n : nat) :
  dropna (values ts) = repeat (Fin c) n -> (1 <= n)%nat -> mean ts = Fin c.
Proof.
  intros Hv Hn. unfold mean. rewrite <- nanmean_dropna, Hv.
  destruct n as [ | k]; [lia | ].
  rewrite <- map_repeat. cbn [repeat]. rewrite nanmean_Fin. f_equal.
  change (c :: repeat c k) with (repeat c (S k)).
  rewrite fold_Rplus_repeat, repeat_length. field. apply not_0_INR. discriminate.
Qed.

Lemma mean_single (ts : Series) (c : R) :
  dropna (values ts) = [Fin c] -> mean ts = Fin c.
Proof. intros H. now apply (mean_constant ts c 1). Qed.

Lemma std_single (ts : Series) (c : R) :
  dropna (values ts) = [Fin c] -> std ts = NaN.
Proof. intros H. unfold std, nanstd, nanvar. now rewrite H. Qed.

Lemma sqrt_IZR_times_4 (L : Z) : (0 <= L)%Z -> sqrt (IZR (4 * L)) = 2 * sqrt (IZR L).
Proof.
  intros HL. apply IZR_le in HL. rewrite mult_IZR.
  rewrite sqrt_mult by lra.
  f_equal. replace 4 with (2 * 2) by lra. apply sqrt_square. lra.
Qed.

Lemma inf_of_sign_neg (r : R) : r < 0 -> inf_of_sign r = NInf.
Proof.
  intros Hr. unfold inf_of_sign.
  destruct (Req_dec_T r 0); [lra | ]. destruct (Rlt_dec 0 r); [lra | reflexivity].
Qed.

Lemma inf_of_sign_zero (r : R) : r = 0 -> inf_of_sign r = NaN.
Proof. intros ->. unfold inf_of_sign. destruct (Req_dec_T 0 0); [reflexivity | lra]. Qed.

Lemma fdiv_by_zero (a b : R) : b = 0 -> fdiv (Fin a) (Fin b) = inf_of_sign a.
Proof. intros ->. simpl. destruct (Req_dec_T 0 0); [reflexivity | lra]. Qed.

Lemma seven_days_nonneg : (0 <= 7)%Z.
Proof. discriminate. Qed.

Lemma four_weeks_below_end : (4 * 7 < uint64_end)%Z.
Proof. reflexivity. Qed.

End PolicyMore.
Import PolicyMore.

(** X9. With a positive standard deviation and a positive lead time below
    2^64, the safety stock and the reorder point grow strictly with the
    service level over (0,1). *)
Theorem X9_safety_stock_increases_with_service_level :
  forall (ts : Series) (L : Z) (m s sl1 sl2 : R),
    mean ts = Fin m -> std ts = Fin s ->
    0 < s -> (0 < L)%Z -> (L < uint64_end)%Z ->
    0 < sl1 -> sl1 < sl2 -> sl2 < 1 ->
    exists r1 r2,
      calculate_safety_stock (init sl1) ts L = Return r1 /\
      calculate_safety_stock (init sl2) ts L = Return r2 /\
      flt (safety_stock r1) (safety_stock r2) /\
      flt (reorder_point r1) (reorder_point r2).
Proof.
  intros ts L m s sl1 sl2 Hm Hs Hs0 HL Hmax H1 H12 H2.
  destruct (calculate_safety_stock_finite (init sl1) ts L m s Hm Hs
              ltac:(cbn [service_level init]; lra) ltac:(lia) Hmax)
    as (r1 & Hr1 & Hss1 & Hrp1).
  destruct (calculate_safety_stock_finite (init sl2) ts L m s Hm Hs
              ltac:(cbn [service_level init]; lra) ltac:(lia) Hmax)
    as (r2 & Hr2 & Hss2 & Hrp2).
  exists r1, r2. split; [exact Hr1 | ]. split; [exact Hr2 | ].
  rewrite Hss1, Hss2, Hrp1, Hrp2. cbn [flt service_level init].
  pose proof (probit_increasing sl1 sl2 H1 H12 H2) as Hz.
  assert (HsL : 0 < s / 7 * sqrt (IZR L)).
  { apply Rmult_lt_0_compat; [lra | ]. apply sqrt_lt_R0. now apply IZR_lt. }
  assert (Hlt : probit sl1 * (s / 7) * sqrt (IZR L) < probit sl2 * (s / 7) * sqrt (IZR L)).
  { rewrite !Rmult_assoc. now apply Rmult_lt_compat_r. }
  split; lra.
Qed.

Module X9Sample.

Lemma lead_time_positive : (0 < 7)%Z.
Proof. reflexivity. Qed.

Lemma sl_80_pos : 0 < 80 / 100.
Proof. lra. Qed.

Lemma sl_80_lt_95 : 80 / 100 < 95 / 100.
Proof. lra. Qed.

Lemma sl_95_lt_1 : 95 / 100 < 1.
Proof. lra. Qed.

End X9Sample.

Lemma X9_witness :
  exists r1 r2,
    calculate_safety_stock (init (80 / 100)) two_weeks 7 = Return r1 /\
    calculate_safety_stock (init (95 / 100)) two_weeks 7 = Return r2 /\
    flt (safety_stock r1) (safety_stock r2) /\
    flt (reorder_point r1) (reorder_point r2).
Proof.
  exact (X9_safety_stock_increases_with_service_level two_weeks 7 7 (sqrt 98)
           (80 / 100) (95 / 100) mean_two_weeks std_two_weeks sqrt_98_pos
           X9Sample.lead_time_positive seven_below_end
           X9Sample.sl_80_pos X9Sample.sl_80_lt_95
           X9Sample.sl_95_lt_1).
Defined.

(** X10. Among lead times below 2^64 the safety stock grows with the
    square root of the lead time: four times the lead time gives twice the
    safety stock, and for a service level of at least one half a longer lead
    time never gives a smaller safety stock. *)
Theorem X10_safety_stock_scales_with_root_of_lead_time :
  forall (self : InventoryOptimizer) (ts : Series) (L : Z) (m s : R),
    mean ts = Fin m -> std ts = Fin s ->
    0 < service_level self < 1 -> (0 <= L)%Z -> (4 * L < uint64_end)%Z ->
    exists r a,
      calculate_safety_stock self ts L = Return r /\
      safety_stock r = Fin a /\
      (exists r4, calculate_safety_stock self ts (4 * L) = Return r4 /\
         safety_stock r4 = Fin (2 * a)) /\
      (1 / 2 <= service_level self ->
       forall L', (L <= L')%Z -> (L' < uint64_end)%Z ->
         exists r', calculate_safety_stock self ts L' = Return r' /\
           fle (safety_stock r) (safety_stock r')).
Proof.
  intros self ts L m s Hm Hs Hsl HL Hmax.
  destruct (calculate_safety_stock_finite self ts L m s Hm Hs Hsl HL ltac:(lia))
    as (r & Hr & Hss & _).
  exists r, (probit (service_level self) * (s / 7) * sqrt (IZR L)).
  split; [exact Hr | ]. split; [exact Hss | ]. split.
  - destruct (calculate_safety_stock_finite self ts (4 * L) m s Hm Hs Hsl
                ltac:(lia) Hmax)
      as (r4 & Hr4 & Hss4 & _).
    exists r4. split; [exact Hr4 | ]. rewrite Hss4, sqrt_IZR_times_4 by exact HL.
    f_equal. ring.
  - intros Hhalf L' HL' Hmax'.
    destruct (calculate_safety_stock_finite self ts L' m s Hm Hs Hsl
                ltac:(lia) Hmax')
      as (r' & Hr' & Hss' & _).
    exists r'. split; [exact Hr' | ]. rewrite Hss, Hss'. cbn [fle].
    assert (Hz : 0 <= probit (service_level self)) by (apply probit_nonneg; lra).
    assert (Hs0 : 0 <= s) by (unfold std, nanstd in Hs; now apply fsqrt_finite_nonneg in Hs).
    apply Rmult_le_compat_l; [apply Rmult_le_pos; lra | ].
    apply sqrt_le_1_alt. now apply IZR_le.
Qed.

Lemma X10_witness :
  exists r a,
    calculate_safety_stock (init (95 / 100)) two_weeks 7 = Return r /\
    safety_stock r = Fin a /\
    (exists r4, calculate_safety_stock (init (95 / 100)) two_weeks (4 * 7) = Return r4 /\
       safety_stock r4 = Fin (2 * a)) /\
    (1 / 2 <= service_level (init (95 / 100)) ->
     forall L', (7 <= L')%Z -> (L' < uint64_end)%Z ->
       exists r', calculate_safety_stock (init (95 / 100)) two_weeks L' = Return r' /\
         fle (safety_stock r) (safety_stock r')).
Proof.
  exact (X10_safety_stock_scales_with_root_of_lead_time (init (95 / 100)) two_weeks 7
           7 (sqrt 98) mean_two_weeks std_two_weeks service_level_95
           seven_days_nonneg four_weeks_below_end).
Defined.

Module EdgeSeries.

(** Two weeks of which the second has no value. *)
Definition lone_week : Series := [(1%Z, Fin 5); (8%Z, NaN)].

Lemma lone_week_values : dropna (values lone_week) = [Fin 5].
Proof. reflexivity. Qed.

(** Two weeks whose sales cancel: a return of 7 and a sale of 7. *)
Definition balanced_weeks : Series := [(1%Z, Fin (-7)); (8%Z, Fin 7)].

Lemma mean_balanced_weeks : mean balanced_weeks = Fin 0.
Proof.
  unfold mean. change (values balanced_weeks) with (map Fin [-7; 7]).
  rewrite nanmean_Fin. f_equal. simpl. lra.
Qed.

Lemma std_balanced_weeks : std balanced_weeks = Fin (sqrt 98).
Proof.
  unfold std. change (values balanced_weeks) with (map Fin [-7; 7]).
  rewrite nanstd_Fin by (simpl; lia). do 2 f_equal.
  unfold sum_sq. simpl. lra.
Qed.

Lemma service_level_95_above_half : 1 / 2 < service_level (init (95 / 100)) < 1.
Proof. cbn [service_level init]. lra. Qed.

Lemma buffered_mean_two_weeks : 7 * default_buffer_multiplier <> 0.
Proof. unfold default_buffer_multiplier. lra. Qed.

End EdgeSeries.
Import EdgeSeries.

(** X12. A series with exactly one present value has a mean but no sample
    standard deviation: for a lead time within numpy's 64 bits
    [calculate_safety_stock] returns the daily demand [c/7] together with a
    not-a-number daily spread, safety stock and reorder point, and raises
    nothing. *)
Theorem X12_single_value_gives_nan_safety_stock :
  forall (self : InventoryOptimizer) (ts : Series) (c : R) (L : Z),
    dropna (values ts) = [Fin c] -> fits_64_bits L ->
    mean ts = Fin c /\ std ts = NaN /\
    exists r, calculate_safety_stock self ts L = Return r /\
      average_daily_demand r = Fin (c / 7) /\
      demand_std_dev r = NaN /\
      safety_stock r = NaN /\
      reorder_point r = NaN.
Proof.
  intros self ts c L Hv HL.
  pose proof (mean_single ts c Hv) as Hm. pose proof (std_single ts c Hv) as Hs.
  split; [exact Hm | ]. split; [exact Hs | ].
  rewrite (calculate_safety_stock_in_range self ts L HL).
  rewrite Hm, Hs, fdiv_Fin by lra.
  eexists. split; [reflexivity | ].
  cbn [average_daily_demand demand_std_dev safety_stock reorder_point fdiv].
  rewrite fmul_NaN_r. cbn [fmul]. rewrite fadd_NaN_r. repeat split.
Qed.

Lemma X12_witness :
  mean lone_week = Fin 5 /\ std lone_week = NaN /\
  exists r, calculate_safety_stock (init (95 / 100)) lone_week 7 = Return r /\
    average_daily_demand r = Fin (5 / 7) /\
    demand_std_dev r = NaN /\
    safety_stock r = NaN /\
    reorder_point r = NaN.
Proof.
  exact (X12_single_value_gives_nan_safety_stock (init (95 / 100)) lone_week 5 7
           lone_week_values seven_fits).
Defined.

(** X13. With a mean [m] and a multiplier [k] whose product is not zero,
    the reduction percentage of [estimate_cost_savings] is
    [(1 - z * sqrt 7 * s / (m * k)) * 100], with [z] the z-score of the
    service level and [s] the standard deviation; the reduction is below
    zero exactly when [m * k < z * s * sqrt 7]. *)
Theorem X13_reduction_percentage_closed_form :
  forall (self : InventoryOptimizer) (ts : Series) (k m s : R),
    mean ts = Fin m -> std ts = Fin s ->
    0 < service_level self < 1 ->
    m * k <> 0 ->
    exists cs, estimate_cost_savings self ts k = Return cs /\
      reduction_percentage cs
      = Fin ((1 - probit (service_level self) * sqrt 7 * s / (m * k)) * 100) /\
      (flt (reduction cs) (Fin 0) <-> m * k < probit (service_level self) * s * sqrt 7).
Proof.
  intros self ts k m s Hm Hs Hsl Hmk.
  destruct (estimate_cost_savings_returns self ts k) as (cs & Hcs).
  destruct (estimate_cost_savings_formula _ _ _ _ _ _ Hm Hs Hsl Hcs)
    as (Hcur & Hopt & Hred & Hpct).
  exists cs. split; [exact Hcs | ].
  rewrite Hpct, Hred, Hcur, Hopt. cbn [fsub fadd fneg].
  rewrite fdiv_Fin by exact Hmk. cbn [fmul flt]. split.
  - f_equal. field. split; intros H0; apply Hmk; rewrite H0; ring.
  - split; intros H; lra.
Qed.

Lemma X13_witness :
  exists cs,
    estimate_cost_savings (init (95 / 100)) two_weeks default_buffer_multiplier
    = Return cs /\
    reduction_percentage cs
    = Fin ((1 - probit (service_level (init (95 / 100))) * sqrt 7 * sqrt 98
                / (7 * default_buffer_multiplier)) * 100) /\
    (flt (reduction cs) (Fin 0) <->
     7 * default_buffer_multiplier
     < probit (service_level (init (95 / 100))) * sqrt 98 * sqrt 7).
Proof.
  exact (X13_reduction_percentage_closed_form (init (95 / 100)) two_weeks
           default_buffer_multiplier 7 (sqrt 98) mean_two_weeks std_two_weeks
           service_level_95 buffered_mean_two_weeks).
Defined.

(** X14. A mean of zero raises nothing: the current safety stock is zero,
    and the divisions by it give an infinite reduction percentage and
    coefficient of variation when the standard deviation is positive
    (minus and plus infinity), and not-a-number when it is zero. *)
Theorem X14_zero_mean_gives_infinite_or_nan_ratios :
  forall (self : InventoryOptimizer) (ts : Series) (s k : R),
    mean ts = Fin 0 -> std ts = Fin s ->
    1 / 2 < service_level self < 1 ->
    (exists cs, estimate_cost_savings self ts k = Return cs /\
       current_safety_stock cs = Fin 0 /\
       (0 < s -> reduction_percentage cs = NInf) /\
       (s = 0 -> reduction_percentage cs = NaN)) /\
    (forall (fit : fitter) (h L : Z) (rec : Recommendation),
       get_recommendations fit self ts h L = Return rec ->
       (0 < s -> coefficient_of_variation (rec_summary rec) = PInf) /\
       (s = 0 -> coefficient_of_variation (rec_summary rec) = NaN)).
Proof.
  intros self ts s k Hm Hs Hsl. split.
  - destruct (estimate_cost_savings_returns self ts k) as (cs & Hcs).
    assert (Hsl' : 0 < service_level self < 1) by lra.
    destruct (estimate_cost_savings_formula _ _ _ _ _ _ Hm Hs Hsl' Hcs)
      as (Hcur & Hopt & Hred & Hpct).
    exists cs. split; [exact Hcs | ].
    assert (Hcur0 : current_safety_stock cs = Fin 0) by (rewrite Hcur; f_equal; ring).
    split; [exact Hcur0 | ].
    rewrite Hpct, Hred, Hcur0, Hopt. cbn [fsub fadd fneg].
    rewrite fdiv_by_zero by reflexivity.
    assert (Hz : 0 < probit (service_level self)) by (apply probit_pos; lra).
    assert (H7 : 0 < sqrt 7) by (apply sqrt_lt_R0; lra).
    split.
    + intros Hs0.
      assert (0 < probit (service_level self) * (s / 7) * sqrt 7 * 7).
      { repeat apply Rmult_lt_0_compat; lra. }
      rewrite inf_of_sign_neg by lra. cbn [fmul].
      apply inf_of_sign_neg. lra.
    + intros ->. rewrite inf_of_sign_zero by (unfold Rdiv; ring). reflexivity.
  - intros fit h L rec Hrec.
    apply get_recommendations_inv in Hrec. destruct Hrec as (_ & _ & _ & Hsum).
    rewrite Hsum. unfold summary_of. cbn [coefficient_of_variation].
    rewrite Hm, Hs, fdiv_by_zero by reflexivity. split.
    + intros Hs0. rewrite inf_of_sign_pos by exact Hs0. cbn [fmul].
      apply inf_of_sign_pos. lra.
    + intros ->. now rewrite inf_of_sign_zero.
Qed.

Lemma X14_witness :
  (exists cs,
     estimate_cost_savings (init (95 / 100)) balanced_weeks default_buffer_multiplier
     = Return cs /\
     current_safety_stock cs = Fin 0 /\
     (0 < sqrt 98 -> reduction_percentage cs = NInf) /\
     (sqrt 98 = 0 -> reduction_percentage cs = NaN)) /\
  (forall (fit : fitter) (h L : Z) (rec : Recommendation),
     get_recommendations fit (init (95 / 100)) balanced_weeks h L = Return rec ->
     (0 < sqrt 98 -> coefficient_of_variation (rec_summary rec) = PInf) /\
     (sqrt 98 = 0 -> coefficient_of_variation (rec_summary rec) = NaN)).
Proof.
  exact (X14_zero_mean_gives_infinite_or_nan_ratios (init (95 / 100)) balanced_weeks
           (sqrt 98) default_buffer_multiplier mean_balanced_weeks std_balanced_weeks
           service_level_95_above_half).
Defined.


Module HandlerMore.





End HandlerMore.
Import HandlerMore.

(** X16. Whatever the frame and the behaviour of the fit, for a request
    whose lead time fits numpy's 64 bits [predict] answers 200 with the
    parameters of the request, 404, or 400 "Validation error": no failure of
    series preparation, fitting or forecasting is answered with 500. *)
Theorem X16_predict_answers_without_500 :
  forall (fit : fitter) (file_exists : bool) (df : DataFrame) (req : Request),
    fits_64_bits (lead_time_days req) ->
    match predict fit file_exists df req with
    | Json200 _ parameters => parameters = req
    | JsonError status error _ =>
        status = 404%Z \/ (status = 400%Z /\ error = "Validation error"%string)
    end.
Proof.
  intros fit file_exists df req HL. unfold predict.
  destruct file_exists; cbn [negb]; [ | now left].
  destruct (snd (prepare_data df (store_id req) (dept_id req))) as [ts | e] eqn:Hprep.
  - destruct (len ts =? 0)%nat; [now left | ].
    destruct (get_recommendations fit _ ts _ _) as [rec | e] eqn:Hrec; [reflexivity | ].
    unfold get_recommendations in Hrec.
    destruct (forecast_demand fit _ ts _) as [fc | e'] eqn:Hfc.
    + cbn [bind] in Hrec.
      destruct (calculate_safety_stock_returns (init (req_service_level req)) ts
                  (lead_time_days req) HL) as (ss & Hss).
      rewrite Hss in Hrec. cbn [bind] in Hrec.
      destruct (estimate_cost_savings_returns (init (req_service_level req)) ts
                  default_buffer_multiplier) as (cs & Hcs).
      rewrite Hcs in Hrec. discriminate.
    + cbn [bind] in Hrec. injection Hrec as <-.
      destruct (forecast_demand_raise_inv _ _ _ _ _ Hfc) as (e0 & -> & _).
      right. now split.
  - destruct (prepare_data_raises_ValueError _ _ _ _ Hprep) as [msg ->].
    right. now split.
Qed.

(** The sample request, lead time 7, with the fit that fails. *)
Lemma X16_witness :
  match predict failing_fit true sales_frame sample_request with
  | Json200 _ parameters => parameters = sample_request
  | JsonError status error _ =>
      status = 404%Z \/ (status = 400%Z /\ error = "Validation error"%string)
  end.
Proof.
  exact (X16_predict_answers_without_500 failing_fit true sales_frame sample_request
           seven_fits).
Defined.



(* ================================================================== *)
(** * app.py: the /stores handler *)
(* ================================================================== *)

Module Stores.

(** [unique()]: the distinct values in order of first appearance. *)
Fixpoint dedup {A : Type} (eqb : A -> A -> bool) (l : list A) : list A :=
  match l with
  | [] => []
  | x :: l' => x :: filter (fun y => negb (eqb y x)) (dedup eqb l')
  end.

Fixpoint insert_by {A : Type} (leb : A -> A -> bool) (x : A) (l : list A) : list A :=
  match l with
  | [] => [x]
  | y :: l' => if leb x y then x :: l else y :: insert_by leb x l'
  end.

(** Sorting in ascending order. *)
Definition sort_by {A : Type} (leb : A -> A -> bool) (l : list A) : list A :=
  fold_right (insert_by leb) [] l.

(** [df[col].unique().tolist()] and [sorted(...)] on integers. *)
Definition unique (l : list Z) : list Z := dedup Z.eqb l.
Definition sorted (l : list Z) : list Z := sort_by Z.leb l.

(** The key of a row in [groupby(['Store', 'Dept'])]. *)
Definition key (r : SalesRecord) : Z * Z := (Store r, Dept r).

Definition key_eqb (a b : Z * Z) : bool :=
  (fst a =? fst b)%Z && (snd a =? snd b)%Z.

Definition key_lex_leb (a b : Z * Z) : bool :=
  (fst a <? fst b)%Z || ((fst a =? fst b)%Z && (snd a <=? snd b)%Z).

(** A row of [combinations]. *)
Record Combination : Type := mkCombination {
  c_Store : Z;
  c_Dept : Z;
  records : nat
}.

(** The size of the group of a key. *)
Definition group_size (df : DataFrame) (k : Z * Z) : nat :=
  length (filter (fun r => key_eqb (key r) k) df).

(** [df.groupby(['Store', 'Dept']).size().reset_index(name='records')]:
    one row for each pair in the frame, in ascending order of the pair. *)
Definition groupby_size (df : DataFrame) : list Combination :=
  map (fun k => {| c_Store := fst k; c_Dept := snd k; records := group_size df k |})
      (sort_by key_lex_leb (dedup key_eqb (map key df))).

Inductive StoresResponse : Type :=
| StoresJson (stores departments : list Z) (combinations : list Combination)
             (total_records : nat)
| StoresError (status : Z) (error : string).

(** [get_stores], given whether [Train.csv] exists and the frame read from
    it. *)
Definition get_stores (file_exists : bool) (df : DataFrame) : StoresResponse :=
  if negb file_exists
  then StoresError 404 "Training data file not found"
  else
    let stores := unique (map Store df) in
    let departments := unique (map Dept df) in
    let combinations := groupby_size df in
    StoresJson (sorted stores) (sorted departments) combinations (length df).

End Stores.
Export Stores.

Module SortFacts.

Section Generic.

Variable A : Type.
Variable eqb : A -> A -> bool.
Variable leb : A -> A -> bool.
Hypothesis eqb_spec : forall x y, eqb x y = true <-> x = y.
Hypothesis leb_total : forall x y, leb x y = true \/ leb y x = true.
Hypothesis leb_trans : forall x y z, leb x y = true -> leb y z = true -> leb x z = true.

Lemma dedup_In (x : A) (l : list A) : In x (dedup eqb l) <-> In x l.
Proof.
  induction l as [ | y l IH]; simpl; [tauto | ].
  rewrite filter_In, IH. split.
  - intros [-> | [H _]]; auto.
  - intros [-> | H]; [now left | ].
    destruct (eqb x y) eqn:E.
    + left. symmetry. now apply eqb_spec.
    + right. split; [exact H | reflexivity].
Qed.

Lemma dedup_NoDup (l : list A) : NoDup (dedup eqb l).
Proof.
  induction l as [ | y l IH]; simpl; constructor.
  - rewrite filter_In. intros [_ H]. cbv beta in H.
    assert (E : eqb y y = true) by now apply eqb_spec.
    now rewrite E in H.
  - now apply NoDup_filter.
Qed.

Lemma insert_by_perm (x : A) (l : list A) : Permutation (insert_by leb x l) (x :: l).
Proof.
  induction l as [ | y l IH]; simpl; [reflexivity | ].
  destruct (leb x y); [reflexivity | ]. rewrite IH. apply perm_swap.
Qed.

Lemma sort_by_perm (l : list A) : Permutation (sort_by leb l) l.
Proof.
  unfold sort_by. induction l as [ | x l IH]; simpl; [reflexivity | ].
  rewrite insert_by_perm. now constructor.
Qed.

Lemma insert_by_sorted (x : A) (l : list A) :
  StronglySorted (fun a b => leb a b = true) l ->
  StronglySorted (fun a b => leb a b = true) (insert_by leb x l).
Proof.
  induction 1 as [ | y l Hs IH Hall]; simpl.
  - repeat constructor.
  - destruct (leb x y) eqn:E.
    + constructor; [now constructor | ]. constructor; [exact E | ].
      rewrite Forall_forall in *. intros z Hz. apply (leb_trans _ _ _ E). now apply Hall.
    + constructor; [exact IH | ].
      rewrite Forall_forall in *. intros z Hz.
      apply (Permutation_in _ (insert_by_perm x l)) in Hz.
      destruct Hz as [<- | Hz]; [ | now apply Hall].
      destruct (leb_total x y) as [H | H]; [congruence | exact H].
Qed.

Lemma sort_by_sorted (l : list A) :
  StronglySorted (fun a b => leb a b = true) (sort_by leb l).
Proof.
  unfold sort_by. induction l as [ | x l IH]; simpl; [constructor | ].
  now apply insert_by_sorted.
Qed.

(** Sorted and free of duplicates is strictly sorted. *)
Lemma sorted_NoDup_strict (l : list A) :
  StronglySorted (fun a b => leb a b = true) l -> NoDup l ->
  StronglySorted (fun a b => leb a b = true /\ a <> b) l.
Proof.
  induction 1 as [ | y l Hs IH Hall]; intros Hnd; [constructor | ].
  inversion Hnd as [ | ? ? Hnotin Hnd']; subst.
  constructor; [now apply IH | ].
  rewrite Forall_forall in *. intros z Hz. split; [now apply Hall | ].
  intros ->. contradiction.
Qed.

Lemma sort_dedup_strict (l : list A) :
  StronglySorted (fun a b => leb a b = true /\ a <> b)
    (sort_by leb (dedup eqb l)).
Proof.
  apply sorted_NoDup_strict; [apply sort_by_sorted | ].
  apply (Permutation_NoDup (Permutation_sym (sort_by_perm _))), dedup_NoDup.
Qed.

Lemma sort_dedup_In (x : A) (l : list A) :
  In x (sort_by leb (dedup eqb l)) <-> In x l.
Proof.
  split; intros H.
  - apply dedup_In. now apply (Permutation_in _ (sort_by_perm _)).
  - apply dedup_In in H.
    now apply (Permutation_in _ (Permutation_sym (sort_by_perm _))).
Qed.

End Generic.

Lemma StronglySorted_impl {A : Type} (P Q : A -> A -> Prop) (l : list A) :
  (forall a b, P a b -> Q a b) -> StronglySorted P l -> StronglySorted Q l.
Proof.
  intros HPQ. induction 1 as [ | y l Hs IH Hall]; constructor; [exact IH | ].
  rewrite Forall_forall in *. intros z Hz. now apply HPQ, Hall.
Qed.

Lemma Z_eqb_iff (x y : Z) : (x =? y)%Z = true <-> x = y.
Proof. apply Z.eqb_eq. Qed.

Lemma Z_leb_total (x y : Z) : (x <=? y)%Z = true \/ (y <=? x)%Z = true.
Proof. rewrite !Z.leb_le. lia. Qed.

Lemma Z_leb_trans (x y z : Z) :
  (x <=? y)%Z = true -> (y <=? z)%Z = true -> (x <=? z)%Z = true.
Proof. rewrite !Z.leb_le. lia. Qed.

(** The sorted distinct values of a column. *)
Lemma sorted_unique_spec (l : list Z) :
  StronglySorted Z.lt (sorted (unique l)) /\
  forall x, In x (sorted (unique l)) <-> In x l.
Proof.
  split.
  - apply (StronglySorted_impl (fun a b => (a <=? b)%Z = true /\ a <> b)).
    + intros a b [H1 H2]. apply Z.leb_le in H1. lia.
    + apply (sort_dedup_strict Z Z.eqb Z.leb Z_eqb_iff Z_leb_total Z_leb_trans).
  - intros x. apply (sort_dedup_In Z Z.eqb Z.leb Z_eqb_iff).
Qed.

Lemma key_eqb_iff (a b : Z * Z) : key_eqb a b = true <-> a = b.
Proof.
  destruct a as [a1 a2], b as [b1 b2]. unfold key_eqb. cbn [fst snd].
  rewrite andb_true_iff, !Z.eqb_eq. split; [intros [-> ->]; reflexivity | ].
  intros [= -> ->]. now split.
Qed.

Lemma key_lex_leb_iff (a b : Z * Z) :
  key_lex_leb a b = true <->
  (fst a < fst b)%Z \/ (fst a = fst b /\ snd a <= snd b)%Z.
Proof.
  unfold key_lex_leb.
  rewrite orb_true_iff, andb_true_iff, Z.ltb_lt, Z.eqb_eq, Z.leb_le. tauto.
Qed.

Lemma key_lex_leb_total (a b : Z * Z) :
  key_lex_leb a b = true \/ key_lex_leb b a = true.
Proof. rewrite !key_lex_leb_iff. lia. Qed.

Lemma key_lex_leb_trans (a b c : Z * Z) :
  key_lex_leb a b = true -> key_lex_leb b c = true -> key_lex_leb a c = true.
Proof. rewrite !key_lex_leb_iff. lia. Qed.

(** The pair of one row lies strictly below the pair of another. *)
Definition pair_lt (a b : Combination) : Prop :=
  (c_Store a < c_Store b)%Z \/ (c_Store a = c_Store b /\ c_Dept a < c_Dept b)%Z.

End SortFacts.
Import SortFacts.

Module StoresFacts.

Lemma group_size_matches (df : DataFrame) (s d : Z) :
  group_size df (s, d) = length (filter (matches s d) df).
Proof. reflexivity. Qed.

Lemma list_sum_map_add {A : Type} (f g : A -> nat) (l : list A) :
  list_sum (map (fun k => (f k + g k)%nat) l)
  = (list_sum (map f l) + list_sum (map g l))%nat.
Proof. induction l as [ | x l IH]; simpl; [reflexivity | rewrite IH; lia]. Qed.

Lemma list_sum_map_zero {A : Type} (f : A -> nat) (l : list A) :
  (forall k, In k l -> f k = 0%nat) -> list_sum (map f l) = 0%nat.
Proof.
  induction l as [ | x l IH]; intros H; simpl; [reflexivity | ].
  rewrite (H x) by now left. rewrite IH; [reflexivity | ].
  intros k Hk. apply H. now right.
Qed.

(** Among distinct keys exactly one is the key of a given row. *)
Lemma indicator_sum (k0 : Z * Z) (K : list (Z * Z)) :
  NoDup K -> In k0 K ->
  list_sum (map (fun k => if key_eqb k0 k then 1%nat else 0%nat) K) = 1%nat.
Proof.
  induction 1 as [ | k K Hnotin Hnd IH]; intros Hin; [destruct Hin | ].
  simpl. destruct (key_eqb k0 k) eqn:E.
  - apply key_eqb_iff in E. subst k.
    rewrite list_sum_map_zero; [reflexivity | ].
    intros k Hk. destruct (key_eqb k0 k) eqn:E'; [ | reflexivity].
    apply key_eqb_iff in E'. subst. contradiction.
  - destruct Hin as [-> | Hin]; [ | now apply IH].
    assert (key_eqb k0 k0 = true) by now apply key_eqb_iff. congruence.
Qed.

(** The group sizes over distinct keys that cover the frame add up to the
    number of rows. *)
Lemma group_sizes_sum (df : DataFrame) (K : list (Z * Z)) :
  NoDup K -> (forall r, In r df -> In (key r) K) ->
  list_sum (map (group_size df) K) = length df.
Proof.
  intros Hnd. induction df as [ | r df IH]; intros Hcover.
  - apply list_sum_map_zero. reflexivity.
  - rewrite (map_ext (group_size (r :: df))
               (fun k => ((if key_eqb (key r) k then 1 else 0) + group_size df k)%nat)).
    + rewrite list_sum_map_add.
      rewrite indicator_sum by (assumption || (apply Hcover; now left)).
      rewrite IH by (intros r' Hr'; apply Hcover; now right).
      reflexivity.
    + intros k. unfold group_size. simpl. destruct (key_eqb (key r) k); reflexivity.
Qed.

Lemma keys_spec (df : DataFrame) :
  let K := sort_by key_lex_leb (dedup key_eqb (map key df)) in
  NoDup K /\
  (forall k, In k K <-> exists r, In r df /\ key r = k) /\
  StronglySorted (fun a b => key_lex_leb a b = true /\ a <> b) K.
Proof.
  cbv zeta. split; [ | split].
  - apply (Permutation_NoDup (Permutation_sym (sort_by_perm _ _ _))).
    apply (dedup_NoDup _ _ key_eqb_iff).
  - intros k. rewrite (sort_dedup_In _ _ _ key_eqb_iff), in_map_iff.
    split; intros (r & H1 & H2); exists r; tauto.
  - apply (sort_dedup_strict _ _ _ key_eqb_iff key_lex_leb_total key_lex_leb_trans).
Qed.

Lemma StronglySorted_map {A B : Type} (P : A -> A -> Prop) (Q : B -> B -> Prop)
  (f : A -> B) (l : list A) :
  (forall a b, P a b -> Q (f a) (f b)) ->
  StronglySorted P l -> StronglySorted Q (map f l).
Proof.
  intros HPQ. induction 1 as [ | y l Hs IH Hall]; simpl; constructor; [exact IH | ].
  rewrite Forall_forall in *. intros z Hz. apply in_map_iff in Hz.
  destruct Hz as (a & <- & Ha). now apply HPQ, Hall.
Qed.

(** What [groupby_size] lists. *)
Lemma groupby_size_spec (df : DataFrame) :
  list_sum (map records (groupby_size df)) = length df /\
  (forall c, In c (groupby_size df) ->
     records c = length (filter (matches (c_Store c) (c_Dept c)) df) /\
     (1 <= records c)%nat) /\
  (forall s d,
     (exists c, In c (groupby_size df) /\ c_Store c = s /\ c_Dept c = d) <->
     (exists r, In r df /\ Store r = s /\ Dept r = d)) /\
  StronglySorted pair_lt (groupby_size df).
Proof.
  destruct (keys_spec df) as (Hnd & Hin & Hsorted). cbv zeta in *.
  unfold groupby_size. split; [ | split; [ | split]].
  - rewrite map_map. cbn [records]. apply group_sizes_sum; [exact Hnd | ].
    intros r Hr. apply Hin. now exists r.
  - intros c Hc. apply in_map_iff in Hc. destruct Hc as ([s d] & <- & Hk).
    cbn [c_Store c_Dept records fst snd]. rewrite group_size_matches.
    split; [reflexivity | ].
    apply Hin in Hk. destruct Hk as (r & Hr & Hkey).
    assert (Hf : In r (filter (matches s d) df)).
    { apply filter_In. split; [exact Hr | ]. injection Hkey as <- <-.
      unfold matches. now rewrite !Z.eqb_refl. }
    destruct (filter (matches s d) df); [destruct Hf | simpl; lia].
  - intros s d. split.
    + intros (c & Hc & <- & <-). apply in_map_iff in Hc.
      destruct Hc as ([s d] & <- & Hk). apply Hin in Hk.
      destruct Hk as (r & Hr & [= <- <-]). now exists r.
    + intros (r & Hr & <- & <-). eexists. split.
      * apply in_map_iff. exists (key r). split; [reflexivity | ].
        apply Hin. now exists r.
      * split; reflexivity.
  - refine (StronglySorted_map _ _ _ _ _ Hsorted).
    intros [a1 a2] [b1 b2] [Hle Hne]. apply key_lex_leb_iff in Hle.
    unfold pair_lt. cbn [c_Store c_Dept fst snd] in *.
    destruct Hle as [Hlt | [-> Hle]]; [now left | right].
    split; [reflexivity | ].
    assert (a2 <> b2) by congruence. lia.
Qed.

Lemma get_stores_inv (df : DataFrame) (st dp : list Z) (cb : list Combination)
  (tot : nat) :
  get_stores true df = StoresJson st dp cb tot ->
  st = sorted (unique (map Store df)) /\
  dp = sorted (unique (map Dept df)) /\
  cb = groupby_size df /\
  tot = length df.
Proof. unfold get_stores. cbn [negb]. intros [= <- <- <- <-]. repeat split. Qed.

(** What [/stores] answers for the sample frame. *)
Lemma get_stores_sales_frame :
  get_stores true sales_frame
  = StoresJson [1%Z] [1%Z] [ {| c_Store := 1; c_Dept := 1; records := 2 |} ] 2.
Proof. reflexivity. Qed.

Definition other_pair_request : Request :=
  {| store_id := 99; dept_id := 99; forecast_periods := 12; lead_time_days := 7;
     req_service_level := 95 / 100 |}.

Lemma other_pair_unlisted :
  forall c, In c [ {| c_Store := 1; c_Dept := 1; records := 2 |} ] ->
    ~ (c_Store c = store_id other_pair_request /\
       c_Dept c = dept_id other_pair_request).
Proof. intros c [<- | []] [H _]. discriminate. Qed.

(** A frame whose only record of store 1, department 1 is dated on a
    Tuesday (1970-01-06). *)
Definition tuesday_frame : DataFrame :=
  [ {| Store := 1; Dept := 1; Date := DateStr 5%Z; Weekly_Sales := Fin 14 |} ].

Lemma tuesday_days_distinct :
  NoDup (observed_days tuesday_frame (store_id sample_request)
           (dept_id sample_request)).
Proof. repeat constructor. intros []. Qed.

Lemma tuesday_span_has_no_friday :
  forall d1 d2 g : day,
    In d1 (observed_days tuesday_frame (store_id sample_request)
             (dept_id sample_request)) ->
    In d2 (observed_days tuesday_frame (store_id sample_request)
             (dept_id sample_request)) ->
    (d1 <= g <= d2)%Z -> (g mod 7 <> 1)%Z.
Proof.
  intros d1 d2 g [<- | []] [<- | []] Hg. cbn in Hg.
  assert (g = 5%Z) by lia. subst. discriminate.
Qed.

End StoresFacts.
Import StoresFacts.

(** X17. The stores and the departments [get_stores] lists are in strictly
    ascending order, so each appears once, and they are exactly the values
    of the [Store] and [Dept] columns of the frame. *)
Theorem X17_stores_and_departments_sorted_and_complete :
  forall (df : DataFrame) (st dp : list Z) (cb : list Combination) (tot : nat),
    get_stores true df = StoresJson st dp cb tot ->
    StronglySorted Z.lt st /\
    (forall s, In s st <-> exists r, In r df /\ Store r = s) /\
    StronglySorted Z.lt dp /\
    (forall d, In d dp <-> exists r, In r df /\ Dept r = d).
Proof.
  intros df st dp cb tot H. apply get_stores_inv in H.
  destruct H as (-> & -> & _ & _).
  destruct (sorted_unique_spec (map Store df)) as [Hs1 Hs2].
  destruct (sorted_unique_spec (map Dept df)) as [Hd1 Hd2].
  repeat split; try assumption.
  - intros H. apply Hs2, in_map_iff in H. destruct H as (r & <- & Hr). now exists r.
  - intros (r & Hr & <-). apply Hs2, in_map_iff. now exists r.
  - intros H. apply Hd2, in_map_iff in H. destruct H as (r & <- & Hr). now exists r.
  - intros (r & Hr & <-). apply Hd2, in_map_iff. now exists r.
Qed.

Lemma X17_witness :
  StronglySorted Z.lt [1%Z] /\
  (forall s, In s [1%Z] <-> exists r, In r sales_frame /\ Store r = s) /\
  StronglySorted Z.lt [1%Z] /\
  (forall d, In d [1%Z] <-> exists r, In r sales_frame /\ Dept r = d).
Proof.
  exact (X17_stores_and_departments_sorted_and_complete sales_frame _ _ _ _
           get_stores_sales_frame).
Defined.

(** X18. In the answer of [get_stores], [total_records] is the number of
    rows; each combination gives the number of rows of its store and
    department, which is at least one; the pairs listed are exactly the pairs
    that occur in the frame, each once and in ascending order; and the
    [records] of all combinations add up to [total_records]. *)
Theorem X18_combinations_partition_the_records :
  forall (df : DataFrame) (st dp : list Z) (cb : list Combination) (tot : nat),
    get_stores true df = StoresJson st dp cb tot ->
    tot = length df /\
    list_sum (map records cb) = tot /\
    (forall c, In c cb ->
       records c = length (filter (matches (c_Store c) (c_Dept c)) df) /\
       (1 <= records c)%nat) /\
    (forall s d,
       (exists c, In c cb /\ c_Store c = s /\ c_Dept c = d) <->
       (exists r, In r df /\ Store r = s /\ Dept r = d)) /\
    StronglySorted pair_lt cb.
Proof.
  intros df st dp cb tot H. apply get_stores_inv in H.
  destruct H as (_ & _ & -> & ->).
  destruct (groupby_size_spec df) as (Hsum & Hcount & Hpairs & Hsorted).
  repeat split; try assumption; try (now apply Hcount); now apply Hpairs.
Qed.

Lemma X18_witness :
  2%nat = length sales_frame /\
  list_sum (map records [ {| c_Store := 1; c_Dept := 1; records := 2 |} ]) = 2%nat /\
  (forall c, In c [ {| c_Store := 1; c_Dept := 1; records := 2 |} ] ->
     records c = length (filter (matches (c_Store c) (c_Dept c)) sales_frame) /\
     (1 <= records c)%nat) /\
  (forall s d,
     (exists c, In c [ {| c_Store := 1; c_Dept := 1; records := 2 |} ] /\
        c_Store c = s /\ c_Dept c = d) <->
     (exists r, In r sales_frame /\ Store r = s /\ Dept r = d)) /\
  StronglySorted pair_lt [ {| c_Store := 1; c_Dept := 1; records := 2 |} ].
Proof.
  exact (X18_combinations_partition_the_records sales_frame _ _ _ _
           get_stores_sales_frame).
Defined.

(** X19. A store and department that [get_stores] does not list among the
    combinations get 404 "No data found" from [predict] on the same frame,
    whatever the fit. *)
Theorem X19_unlisted_pair_has_no_data :
  forall (fit : fitter) (df : DataFrame) (req : Request)
         (st dp : list Z) (cb : list Combination) (tot : nat),
    get_stores true df = StoresJson st dp cb tot ->
    (forall c, In c cb ->
       ~ (c_Store c = store_id req /\ c_Dept c = dept_id req)) ->
    predict fit true df req
    = JsonError 404 "No data found"
        ("No data available for Store " ++ str_of_int (store_id req)
         ++ ", Department " ++ str_of_int (dept_id req)).
Proof.
  intros fit df req st dp cb tot H Hunlisted. apply get_stores_inv in H.
  destruct H as (_ & _ & -> & _).
  destruct (groupby_size_spec df) as (_ & _ & Hpairs & _).
  apply predict_no_data, prepare_data_no_match.
  intros r Hr [Hs Hd].
  destruct (proj2 (Hpairs (store_id req) (dept_id req))) as (c & Hc & Hcs & Hcd).
  - now exists r.
  - now apply (Hunlisted c Hc).
Qed.

Lemma X19_witness :
  predict failing_fit true sales_frame other_pair_request
  = JsonError 404 "No data found"
      ("No data available for Store " ++ str_of_int (store_id other_pair_request)
       ++ ", Department " ++ str_of_int (dept_id other_pair_request)).
Proof.
  exact (X19_unlisted_pair_has_no_data failing_fit sales_frame other_pair_request
           _ _ _ _ get_stores_sales_frame other_pair_unlisted).
Defined.

(** X20. When the records of the requested store and department have
    distinct dates and no Friday lies between any two of them, the prepared
    series is empty and [predict] answers 404 "No data found", records or
    not. *)
Theorem X20_no_friday_in_span_means_no_data :
  forall (fit : fitter) (df : DataFrame) (req : Request),
    NoDup (observed_days df (store_id req) (dept_id req)) ->
    (forall d1 d2 g : day,
       In d1 (observed_days df (store_id req) (dept_id req)) ->
       In d2 (observed_days df (store_id req) (dept_id req)) ->
       (d1 <= g <= d2)%Z -> (g mod 7 <> 1)%Z) ->
    snd (prepare_data df (store_id req) (dept_id req)) = Return [] /\
    predict fit true df req
    = JsonError 404 "No data found"
        ("No data available for Store " ++ str_of_int (store_id req)
         ++ ", Department " ++ str_of_int (dept_id req)).
Proof.
  intros fit df req Hnd Hspan.
  assert (Hempty : snd (prepare_data df (store_id req) (dept_id req)) = Return []).
  { destruct (snd (prepare_data df (store_id req) (dept_id req))) as [ts | e] eqn:E.
    - f_equal. rewrite prepare_data_eq in E. cbn [snd] in E.
      destruct (sales_of df (store_id req) (dept_id req)) as [ | p s0] eqn:Es.
      + now injection E as <-.
      + rewrite <- Es in E.
        assert (Hne : sales_of df (store_id req) (dept_id req) <> [])
          by (rewrite Es; discriminate).
        destruct (asfreq_return _ _ Hne E) as (_ & lo & hi & Hlo & Hhi & _ & ->).
        destruct (date_range_W_FRI lo hi) as [ | g l] eqn:Eg; [reflexivity | exfalso].
        assert (Hg : In g (date_range_W_FRI lo hi)) by (rewrite Eg; now left).
        apply date_range_In in Hg. destruct Hg as [Hb Hfri].
        apply (Hspan lo hi g); try assumption;
          now apply (Permutation_in _ (index_sales_of_perm _ _ _)).
    - exfalso.
      apply (proj1 (prepare_data_raises_iff df (store_id req) (dept_id req)));
        [rewrite E; now exists e | exact Hnd]. }
  split; [exact Hempty | now apply predict_no_data].
Qed.

Lemma X20_witness :
  snd (prepare_data tuesday_frame (store_id sample_request) (dept_id sample_request))
  = Return [] /\
  predict failing_fit true tuesday_frame sample_request
  = JsonError 404 "No data found"
      ("No data available for Store " ++ str_of_int (store_id sample_request)
       ++ ", Department " ++ str_of_int (dept_id sample_request)).
Proof.
  exact (X20_no_friday_in_span_means_no_data failing_fit tuesday_frame sample_request
           tuesday_days_distinct tuesday_span_has_no_friday).
Defined.
